(** * Hybrid retrieval pipeline (retrieval.py, scripts.py): a shallow embedding

    The online query path of the repository is embedded here:

    - [Retrieval.retrieve] and [Retrieval.generate_answer_with_mistral]
      follow retrieval.py line by line;
    - [Scripts.retrieve] follows the wrapper of scripts.py, including the way
      Python resolves the global name [retrieve] when the wrapper runs.

    The three remote services (embedding model, Qdrant, Mistral) are code the
    repository only calls; they appear as the fields of a [World] record.  The
    Cypher text that retrieval.py sends to Neo4j is part of the source, so its
    meaning on a graph is written out ([Cypher.match_chunks]).

    Python exceptions are values ([Raise e]); every call to a remote service
    is appended to a call log, so that "is called once" and "is never called"
    are statements about the log.

    The offline path is embedded as well: [Config] (config.py),
    [Preprocess] (preprocess.py: finding the PDF, reading its pages, cleaning
    the concepts of a response, one entry per chapter), [KnowledgeBase]
    (knowledge_base.py), [Ingest] (ingest.py: the concept list, the upload
    batches, the mentions) and [ScriptsOffline] (the other entry points of
    scripts.py).  The file system, the PDF reader and the generative model
    are arguments; console output is not modelled, except the lines
    [ingest_data] prints itself.

    A string is a sequence of code points below 256 (Latin-1), one per
    [ascii]; case folding, white space and [repr] are Python's (and, for
    case folding, Neo4j's) on that range. *)

From Stdlib Require Import ZArith List Ascii String PrimFloat.
From stdpp Require Import base option list gmap strings pretty sorting.

Local Open Scope string_scope.
Local Open Scope list_scope.

(* ===================================================================== *)
(** ** Python values, exceptions and results                              *)
(* ===================================================================== *)

(** The Python values that travel through the query path. *)
#[warnings="-register-all"]
Inductive pyval : Type :=
  | PyNone
  | PyStr (s : string)
  | PyList (items : list pyval)
  | PyTuple (items : list pyval).

(** A raised exception: the class name and the message. *)
Record PyExc : Type := mkExc { exc_type : string; exc_msg : string }.

Inductive Result (A : Type) : Type :=
  | Ok (a : A)
  | Raise (e : PyExc).
Arguments Ok {A} a.
Arguments Raise {A} e.

Definition is_str (v : pyval) : bool :=
  match v with PyStr _ => true | _ => false end.

Definition is_ok {A} (r : Result A) : bool :=
  match r with Ok _ => true | Raise _ => false end.

(** [type(v).__name__] *)
Definition type_name (v : pyval) : string :=
  match v with
  | PyNone => "NoneType"
  | PyStr _ => "str"
  | PyList _ => "list"
  | PyTuple _ => "tuple"
  end.

(* ===================================================================== *)
(** ** String primitives used by the source                               *)
(* ===================================================================== *)

Module Str.

Definition NL : string := String (ascii_of_nat 10) EmptyString.

(** [sep.join(parts)] *)
Fixpoint join (sep : string) (parts : list string) : string :=
  match parts with
  | [] => EmptyString
  | [s] => s
  | s :: rest => s ++ sep ++ join sep rest
  end.

(** Lower-casing of one code point: 'A'..'Z' (65..90) and the accented
    capitals 192..214 and 216..222 move by 32. *)
Definition lower_char (c : ascii) : ascii :=
  let n := nat_of_ascii c in
  if ((65 <=? n)%nat && (n <=? 90)%nat)
     || ((192 <=? n)%nat && (n <=? 214)%nat)
     || ((216 <=? n)%nat && (n <=? 222)%nat)
  then ascii_of_nat (n + 32) else c.

(** [toLower(s)] of Cypher, [s.lower()] of Python. *)
Fixpoint lower (s : string) : string :=
  match s with
  | EmptyString => EmptyString
  | String c s' => String (lower_char c) (lower s')
  end.

(** [starts_with p s]: [s] begins with [p]. *)
Fixpoint starts_with (p s : string) : bool :=
  match p, s with
  | EmptyString, _ => true
  | String _ _, EmptyString => false
  | String a p', String b s' => if ascii_dec a b then starts_with p' s' else false
  end.

(** [contains needle hay]: [needle in hay], Cypher's [hay CONTAINS needle]. *)
Fixpoint contains (needle hay : string) : bool :=
  starts_with needle hay ||
  match hay with
  | EmptyString => false
  | String _ hay' => contains needle hay'
  end.

(** [c.isspace()]: 9..13, 28..31, 32, 133 (NEL) and 160 (no-break space). *)
Definition isspace (c : ascii) : bool :=
  let n := nat_of_ascii c in
  ((9 <=? n)%nat && (n <=? 13)%nat) || ((28 <=? n)%nat && (n <=? 32)%nat)
  || (n =? 133)%nat || (n =? 160)%nat.

Fixpoint all_space (s : string) : bool :=
  match s with
  | EmptyString => true
  | String c s' => isspace c && all_space s'
  end.

Fixpoint lstrip (s : string) : string :=
  match s with
  | EmptyString => EmptyString
  | String c s' => if isspace c then lstrip s' else s
  end.

Fixpoint rstrip (s : string) : string :=
  match s with
  | EmptyString => EmptyString
  | String c s' =>
      match rstrip s' with
      | EmptyString => if isspace c then EmptyString else String c EmptyString
      | r => String c r
      end
  end.

(** [s.strip()] *)
Definition strip (s : string) : string := rstrip (lstrip s).

Definition first_char (s : string) : option ascii :=
  match s with EmptyString => None | String c _ => Some c end.

Fixpoint last_char (s : string) : option ascii :=
  match s with
  | EmptyString => None
  | String c EmptyString => Some c
  | String _ s' => last_char s'
  end.

(** Two lower-case hexadecimal digits, as in [repr]'s [\xhh]. *)
Definition hex_digit (n : nat) : ascii :=
  if (n <? 10)%nat then ascii_of_nat (48 + n) else ascii_of_nat (87 + n).

Definition hex2 (c : ascii) : string :=
  let n := nat_of_ascii c in
  String (hex_digit (n / 16)) (String (hex_digit (n mod 16)) EmptyString).

Definition BACKSLASH : ascii := ascii_of_nat 92.
Definition SQUOTE : ascii := ascii_of_nat 39.
Definition DQUOTE : ascii := ascii_of_nat 34.

Fixpoint has_char (c : ascii) (s : string) : bool :=
  match s with
  | EmptyString => false
  | String d s' => if ascii_dec c d then true else has_char c s'
  end.

(** [repr] of one character inside a literal delimited by [quote]; the
    code points that are not printable (below 32, 127..160, 173) are
    written [\xhh]. *)
Definition repr_char (quote c : ascii) : string :=
  let n := nat_of_ascii c in
  if ascii_dec c quote then String BACKSLASH (String c EmptyString)
  else if ascii_dec c BACKSLASH then String BACKSLASH (String c EmptyString)
  else if (n =? 9)%nat then String BACKSLASH "t"
  else if (n =? 10)%nat then String BACKSLASH "n"
  else if (n =? 13)%nat then String BACKSLASH "r"
  else if (n <? 32)%nat || ((127 <=? n)%nat && (n <=? 160)%nat) || (n =? 173)%nat
       then String BACKSLASH ("x" ++ hex2 c)
  else String c EmptyString.

Fixpoint repr_body (quote : ascii) (s : string) : string :=
  match s with
  | EmptyString => EmptyString
  | String c s' => repr_char quote c ++ repr_body quote s'
  end.

(** [repr(s)] for a str: single quotes unless the text has a single quote
    and no double quote. *)
Definition repr (s : string) : string :=
  let quote := if has_char SQUOTE s && negb (has_char DQUOTE s) then DQUOTE else SQUOTE in
  String quote (repr_body quote s ++ String quote EmptyString).

End Str.

(** [repr(v)] and [str(v)] ([format(v, '')], what an f-string field does). *)
Fixpoint py_repr (v : pyval) : string :=
  match v with
  | PyNone => "None"
  | PyStr s => Str.repr s
  | PyList items => "[" ++ Str.join ", " (map py_repr items) ++ "]"
  | PyTuple [x] => "(" ++ py_repr x ++ ",)"
  | PyTuple items => "(" ++ Str.join ", " (map py_repr items) ++ ")"
  end.

Definition py_str (v : pyval) : string :=
  match v with
  | PyStr s => s
  | _ => py_repr v
  end.

(* ===================================================================== *)
(** ** Remote services, the call log and the monad of the query path      *)
(* ===================================================================== *)

(** One hit of [qdrant_client.search]: ingest.py stores the payload
    [{"text": ..., "metadata": ...}]; [payload] is optional in the client. *)
Record ScoredPoint : Type := mkPoint {
  point_id : string;
  point_score : float;
  point_payload : option (gmap string pyval)
}.

(** A node of the Neo4j graph.  Every property the repository writes
    (text, embeddingsId, metadata, name, title, chapterNumber) is a string;
    a property that is absent reads as null. *)
Record Node : Type := mkNode {
  node_labels : list string;
  node_props : gmap string string
}.

(** Mistral chat completion: request and response. *)
Record ChatMessage : Type := mkMessage { role : string; content : string }.

Record ChatRequest : Type := mkRequest {
  req_model : string;
  req_messages : list ChatMessage;
  req_temperature : float;
  req_max_tokens : Z
}.

(** [response.choices[i].message.content] is optional in the client. *)
Record Choice : Type := mkChoice { message_content : option string }.
Record ChatResponse : Type := mkResponse { choices : list Choice }.

(** What the process reaches from the module level of retrieval.py:
    [embeddings], [qdrant_client], [driver] with [neo4j_database], [client].
    A service that is down or refuses the call answers [Raise e]. *)
Record World : Type := mkWorld {
  embed_query : string -> Result (list float);
  qdrant_search : string -> list float -> nat -> Result (list ScoredPoint);
  neo4j_database : string;
  neo4j_graph : string -> Result (list Node);
  chat_complete : ChatRequest -> Result ChatResponse
}.

(** The calls that leave the process, in the order they are made. *)
Inductive Call : Type :=
  | EmbedQuery (text : string)
  | QdrantSearch (collection : string) (query_vector : list float) (limit : nat)
  | Neo4jRun (database : string) (query_param : string)
  | ChatComplete (req : ChatRequest).

(** A computation reads and extends the call log and returns or raises. *)
Definition M (A : Type) : Type := list Call -> Result A * list Call.

#[global] Instance M_ret : MRet M := fun A a log => (Ok a, log).

#[global] Instance M_bind : MBind M := fun A B f m log =>
  match m log with
  | (Ok a, log') => f a log'
  | (Raise e, log') => (Raise e, log')
  end.

Definition raise {A} (e : PyExc) : M A := fun log => (Raise e, log).

(** A pure step that may raise. *)
Definition lift {A} (r : Result A) : M A := fun log => (r, log).

(** A remote call: logged first, then answered. *)
Definition remote {A} (c : Call) (r : Result A) : M A :=
  fun log => (r, log ++ [c]).

Definition result_of {A} (x : Result A * list Call) : Result A := fst x.
Definition log_of {A} (x : Result A * list Call) : list Call := snd x.

(** Exceptions the interpreter itself raises on this path. *)
Definition TypeError (msg : string) : PyExc := mkExc "TypeError" msg.
Definition KeyError (msg : string) : PyExc := mkExc "KeyError" msg.
Definition IndexError (msg : string) : PyExc := mkExc "IndexError" msg.
Definition ValueError (msg : string) : PyExc := mkExc "ValueError" msg.
Definition AttributeError (msg : string) : PyExc := mkExc "AttributeError" msg.
Definition NameError (msg : string) : PyExc := mkExc "NameError" msg.
Definition RecursionError : PyExc :=
  mkExc "RecursionError" "maximum recursion depth exceeded".

(** [d[key]] on an optional dict, as in [result.payload["text"]]. *)
Definition subscript (d : option (gmap string pyval)) (key : string) : Result pyval :=
  match d with
  | None => Raise (TypeError "'NoneType' object is not subscriptable")
  | Some m =>
      match m !! key with
      | Some v => Ok v
      | None => Raise (KeyError (Str.repr key))
      end
  end.

(** The items of a list handed to [str.join], which accepts only str. *)
Fixpoint as_strs (i : nat) (items : list pyval) : Result (list string) :=
  match items with
  | [] => Ok []
  | PyStr s :: rest =>
      match as_strs (S i) rest with
      | Ok ss => Ok (s :: ss)
      | Raise e => Raise e
      end
  | v :: _ =>
      Raise (TypeError ("sequence item " ++ pretty i ++ ": expected str instance, "
                        ++ type_name v ++ " found"))
  end.

(** [sep.join(items)] *)
Definition py_join (sep : string) (items : list pyval) : Result string :=
  match as_strs 0 items with
  | Ok ss => Ok (Str.join sep ss)
  | Raise e => Raise e
  end.

(* ===================================================================== *)
(** ** The Cypher query of retrieval.py                                   *)
(* ===================================================================== *)

(** <<
    MATCH (c:Chunk)
    WHERE toLower(c.text) CONTAINS toLower($query)
    RETURN c.text AS text LIMIT 5
    >> *)
Module Cypher.

Definition LIMIT : nat := 5.

(** [(c:Chunk)] *)
Definition has_label (l : string) (c : Node) : bool :=
  bool_decide (l ∈ node_labels c).

(** [toLower(c.text) CONTAINS toLower($query)]; null when [c.text] is
    null, and WHERE keeps a row only when the predicate is true. *)
Definition where_clause (query : string) (c : Node) : bool :=
  match node_props c !! "text" with
  | Some t => Str.contains (Str.lower query) (Str.lower t)
  | None => false
  end.

(** [RETURN c.text AS text]: one record with the single key [text]. *)
Definition return_row (c : Node) : gmap string pyval :=
  match node_props c !! "text" with
  | Some t => {[ "text" := PyStr t ]}
  | None => {[ "text" := PyNone ]}
  end.

Definition match_chunks (query : string) (nodes : list Node)
  : list (gmap string pyval) :=
  take LIMIT
    (map return_row
       (List.filter (fun c => has_label "Chunk" c && where_clause query c) nodes)).

End Cypher.

(* ===================================================================== *)
(** ** retrieval.py                                                       *)
(* ===================================================================== *)

Module Retrieval.

(** config.py, [initialize_config]: [collection_name = "machine-learning"] *)
Definition collection_name : string := "machine-learning".

(** The [limit=5] of the search call. *)
Definition SEARCH_LIMIT : nat := 5.

Definition DEFAULT_MODEL : string := "mistral-small-latest".
#[warnings="-inexact-float"]
Definition DEFAULT_TEMPERATURE : float := 0.3%float.
Definition DEFAULT_MAX_TOKENS : Z := 300.

Definition system_prompt : string :=
  "You are a helpful assistant that answers questions regarding a data science textbook.".

(** The f-string [user_prompt]. *)
Definition user_prompt (query milvus_context neo4j_context : pyval) : string :=
  "Based on the following contexts extracted from similar questions and graph data:"
    ++ Str.NL ++ "---"
    ++ Str.NL ++ "Vector DB context:"
    ++ Str.NL ++ py_str milvus_context
    ++ Str.NL ++ "---"
    ++ Str.NL ++ "Neo4j context:"
    ++ Str.NL ++ py_str neo4j_context
    ++ Str.NL ++ "---"
    ++ Str.NL ++ "Question:"
    ++ Str.NL ++ py_str query
    ++ Str.NL
    ++ Str.NL ++ "Provide a concise, helpful answer.".

Definition build_messages (query milvus_context neo4j_context : pyval)
  : list ChatMessage :=
  [ mkMessage "system" system_prompt;
    mkMessage "user" (user_prompt query milvus_context neo4j_context) ].

(** [response.choices[0].message.content.strip()] *)
Definition extract_answer (response : ChatResponse) : Result pyval :=
  match choices response with
  | [] => Raise (IndexError "list index out of range")
  | c :: _ =>
      match message_content c with
      | None => Raise (AttributeError "'NoneType' object has no attribute 'strip'")
      | Some text => Ok (PyStr (Str.strip text))
      end
  end.

(** The loop [for result in qdrant_results: relevant_texts.append(...)] *)
Fixpoint collect_payload_texts (qdrant_results : list ScoredPoint)
         (relevant_texts : list pyval) : Result (list pyval) :=
  match qdrant_results with
  | [] => Ok relevant_texts
  | result :: rest =>
      match subscript (point_payload result) "text" with
      | Ok t => collect_payload_texts rest (relevant_texts ++ [t])
      | Raise e => Raise e
      end
  end.

(** The loop [async for record in neo4j_results: cypher_texts.append(...)] *)
Fixpoint collect_record_texts (neo4j_results : list (gmap string pyval))
         (cypher_texts : list pyval) : Result (list pyval) :=
  match neo4j_results with
  | [] => Ok cypher_texts
  | record :: rest =>
      match subscript (Some record) "text" with
      | Ok t => collect_record_texts rest (cypher_texts ++ [t])
      | Raise e => Raise e
      end
  end.

Section WithWorld.

Variable w : World.

(** [session.run(cypher, {"query": query})] inside
    [driver.session(database=neo4j_database)] *)
Definition session_run (query : string) : M (list (gmap string pyval)) :=
  remote (Neo4jRun (neo4j_database w) query)
    (match neo4j_graph w (neo4j_database w) with
     | Ok nodes => Ok (Cypher.match_chunks query nodes)
     | Raise e => Raise e
     end).

(** [async def retrieve(query)] *)
Definition retrieve (query : string) : M pyval :=
  query_embedding ← remote (EmbedQuery query) (embed_query w query);
  qdrant_results ←
    remote (QdrantSearch collection_name query_embedding SEARCH_LIMIT)
           (qdrant_search w collection_name query_embedding SEARCH_LIMIT);
  relevant_texts ← lift (collect_payload_texts qdrant_results []);
  all_relevant_texts ← lift (py_join Str.NL relevant_texts);
  neo4j_results ← session_run query;
  cypher_texts ← lift (collect_record_texts neo4j_results []);
  mret (PyTuple [PyStr all_relevant_texts; PyList cypher_texts]).

(** [async def generate_answer_with_mistral(query, milvus_context,
    neo4j_context, model="mistral-small-latest", temperature=0.3,
    max_tokens=300)]; a keyword the caller leaves out is [None] here. *)
Definition generate_answer_with_mistral
           (query milvus_context neo4j_context : pyval)
           (model : option string) (temperature : option float)
           (max_tokens : option Z) : M pyval :=
  let request :=
    mkRequest (default DEFAULT_MODEL model)
              (build_messages query milvus_context neo4j_context)
              (default DEFAULT_TEMPERATURE temperature)
              (default DEFAULT_MAX_TOKENS max_tokens) in
  response ← remote (ChatComplete request) (chat_complete w request);
  lift (extract_answer response).

End WithWorld.

End Retrieval.

(* ===================================================================== *)
(** ** scripts.py                                                         *)
(* ===================================================================== *)

Module Scripts.

(** The function objects a global name of scripts.py can be bound to. *)
Inductive pyfun : Type :=
  | retrieval_retrieve                       (* retrieval.py, [retrieve] *)
  | retrieval_generate_answer_with_mistral   (* retrieval.py *)
  | scripts_retrieve.                        (* scripts.py, [retrieve] *)

(** The module namespace while the statements of scripts.py execute, top
    to bottom: the [from retrieval import ...] line binds both names, the
    later [async def retrieve] binds [retrieve] again. *)
Definition after_import : gmap string pyfun :=
  <["generate_answer_with_mistral" := retrieval_generate_answer_with_mistral]>
    (<["retrieve" := retrieval_retrieve]> ∅).

Definition module_globals : gmap string pyfun :=
  <["retrieve" := scripts_retrieve]> after_import.

(** [a, b = v] *)
Definition unpack2 (v : pyval) : Result (pyval * pyval) :=
  match v with
  | PyTuple [a; b] | PyList [a; b] => Ok (a, b)
  | PyStr (String a (String b EmptyString)) =>
      Ok (PyStr (String a EmptyString), PyStr (String b EmptyString))
  | PyNone => Raise (TypeError "cannot unpack non-iterable NoneType object")
  | PyTuple l | PyList l =>
      if (length l <? 2)%nat
      then Raise (ValueError ("not enough values to unpack (expected 2, got "
                              ++ pretty (length l) ++ ")"))
      else Raise (ValueError "too many values to unpack (expected 2)")
  | PyStr s =>
      if (String.length s <? 2)%nat
      then Raise (ValueError ("not enough values to unpack (expected 2, got "
                              ++ pretty (String.length s) ++ ")"))
      else Raise (ValueError "too many values to unpack (expected 2)")
  end.

Section WithWorld.

Variable w : World.

(** [await retrieve(query)]: the name is looked up in the module
    namespace when the call runs; [self] is the wrapper one frame
    deeper. *)
Definition call_retrieve (self : string -> M pyval) (query : string) : M pyval :=
  match module_globals !! "retrieve" with
  | Some retrieval_retrieve => Retrieval.retrieve w query
  | Some scripts_retrieve => self query
  | Some retrieval_generate_answer_with_mistral =>
      raise (TypeError
        "generate_answer_with_mistral() missing 2 required positional arguments: 'milvus_context' and 'neo4j_context'")
  | None => raise (NameError "name 'retrieve' is not defined")
  end.

(** [await generate_answer_with_mistral(query, milvus_context, neo4j_context)] *)
Definition call_generate (query : string) (milvus_context neo4j_context : pyval)
  : M pyval :=
  match module_globals !! "generate_answer_with_mistral" with
  | Some retrieval_generate_answer_with_mistral =>
      Retrieval.generate_answer_with_mistral w (PyStr query)
        milvus_context neo4j_context None None None
  | Some _ =>
      raise (TypeError "retrieve() takes 1 positional argument but 3 were given")
  | None => raise (NameError "name 'generate_answer_with_mistral' is not defined")
  end.

(** [async def retrieve(query)] of scripts.py.  [depth] is the number of
    frames left before the interpreter's recursion limit; entering a
    frame with none left raises RecursionError. *)
Fixpoint retrieve (depth : nat) (query : string) : M pyval :=
  match depth with
  | O => raise RecursionError
  | S depth' =>
      r ← call_retrieve (retrieve depth') query;
      '(milvus_context, neo4j_context) ← lift (unpack2 r);
      answer ← call_generate query milvus_context neo4j_context;
      mret answer
  end.

(** [answer = asyncio.run(retrieve(query)); print(answer)]: what reaches
    standard output, if anything. *)
Definition main (recursion_limit : nat) (query : string)
  : Result string * list Call :=
  match retrieve recursion_limit query [] with
  | (Ok answer, log) => (Ok (py_str answer), log)
  | (Raise e, log) => (Raise e, log)
  end.

End WithWorld.

End Scripts.

(* ===================================================================== *)
(** ** Vocabulary of the statements                                       *)
(* ===================================================================== *)



(** [out] is [s] without the white space at its two ends. *)
Definition trimmed_of (s out : string) : Prop :=
  (exists l r : string, s = (l ++ out ++ r)%string /\ Str.all_space l = true /\ Str.all_space r = true)
  /\ (forall c, Str.first_char out = Some c -> Str.isspace c = false)
  /\ (forall c, Str.last_char out = Some c -> Str.isspace c = false).

(** The hit [r] carries the chunk text [t] in its payload. *)
Definition has_text (r : ScoredPoint) (t : string) : Prop :=
  exists m, point_payload r = Some m /\ m !! "text" = Some (PyStr t).

(** The text of a node labelled Chunk. *)
Definition chunk_text (c : Node) : option string :=
  if Cypher.has_label "Chunk" c then node_props c !! "text" else None.

(** The texts of the chunks of a graph, in the order the store scans them. *)
Definition chunk_texts (nodes : list Node) : list string := omap chunk_text nodes.

(** Qdrant's contract for [limit]: a search answers with at most that many
    hits. *)
Definition respects_limit (w : World) : Prop :=
  forall collection v k hits,
    qdrant_search w collection v k = Ok hits -> (length hits <= k)%nat.

(** The chunk texts that satisfy the WHERE clause for [query]. *)
Definition matching_chunk_texts (query : string) (nodes : list Node) : list string :=
  List.filter (fun t => Str.contains (Str.lower query) (Str.lower t)) (chunk_texts nodes).

(** The outcome is an exception of class [cls]. *)
Definition raises_type {A} (r : Result A) (cls : string) : Prop :=
  exists e, r = Raise e /\ exc_type e = cls.

(** The line feed. *)
Definition LF : ascii := "010"%char.

(** [text] is the items of [lines] with one line feed between each two
    neighbours; no line feed before the first or after the last. *)
Inductive newline_joined : list string -> string -> Prop :=
  | joined_none : newline_joined [] EmptyString
  | joined_one (t : string) : newline_joined [t] t
  | joined_more (t u : string) (rest : list string) (s : string) :
      newline_joined (u :: rest) s ->
      newline_joined (t :: u :: rest) (t ++ String LF s)%string.

(** A context block that holds no text, as a str or as a list. *)
Definition empty_context (v : pyval) : Prop :=
  v = PyStr EmptyString \/ v = PyList [].








(* ===================================================================== *)
(** ** Concrete worlds                                                    *)
(* ===================================================================== *)

Module Sample.

Definition hit (id : string) (score : float) (text : string) : ScoredPoint :=
  mkPoint id score (Some {[ "text" := PyStr text ]}).

Definition chunk (id text : string) : Node :=
  mkNode ["Chunk"] (<["embeddingsId" := id]> {[ "text" := text ]}).

Definition concept (name : string) : Node :=
  mkNode ["Concept"] {[ "name" := name ]}.

Definition query_vector : list float := [0.5%float; 0.25%float; (-0.125)%float].

Definition hits : list ScoredPoint :=
  [ hit "p1" 0.875%float "Linear regression fits a line.";
    hit "p2" 0.75%float "Loss functions measure error.";
    hit "p1" 0.875%float "Linear regression fits a line." ].

Definition nodes : list Node :=
  [ concept "regression";
    chunk "p1" "Linear regression fits a line.";
    chunk "p2" "Loss functions measure error.";
    chunk "p3" "Logistic REGRESSION is a classifier." ].

Definition answer : ChatResponse :=
  mkResponse [ mkChoice (Some (" Regression fits a model to data." ++ Str.NL)%string) ].

(** Every service answers. *)
Definition world : World :=
  mkWorld (fun _ => Ok query_vector)
          (fun collection _ limit =>
             if String.eqb collection "machine-learning" then Ok (take limit hits)
             else Raise (mkExc "UnexpectedResponse" "404 (Not Found)"))
          "neo4j"
          (fun database =>
             if String.eqb database "neo4j" then Ok nodes
             else Raise (mkExc "ClientError" "Database does not exist"))
          (fun _ => Ok answer).

Definition unavailable : PyExc := mkExc "ServiceUnavailable" "connection refused".
Definition quota : PyExc := mkExc "SDKError" "Status 429: quota exceeded".

(** The same world with one service replaced. *)
Definition embedding_down : World :=
  mkWorld (fun _ => Raise unavailable) (qdrant_search world)
          (neo4j_database world) (neo4j_graph world) (chat_complete world).

Definition qdrant_down : World :=
  mkWorld (embed_query world) (fun _ _ _ => Raise unavailable)
          (neo4j_database world) (neo4j_graph world) (chat_complete world).

Definition qdrant_empty : World :=
  mkWorld (embed_query world) (fun _ _ _ => Ok [])
          (neo4j_database world) (neo4j_graph world) (chat_complete world).

Definition neo4j_down : World :=
  mkWorld (embed_query world) (qdrant_search world)
          (neo4j_database world) (fun _ => Raise unavailable) (chat_complete world).

Definition mistral_quota : World :=
  mkWorld (embed_query world) (qdrant_search world)
          (neo4j_database world) (neo4j_graph world) (fun _ => Raise quota).

Definition texts : list string :=
  [ "Linear regression fits a line.";
    "Loss functions measure error.";
    "Linear regression fits a line." ].

End Sample.

(* ===================================================================== *)
(** ** The offline path: results that raise, [except Exception]           *)
(* ===================================================================== *)

(** Steps without remote calls run in [Result] itself. *)
#[global] Instance Result_ret : MRet Result := fun A a => Ok a.

#[global] Instance Result_bind : MBind Result := fun A B f r =>
  match r with
  | Ok a => f a
  | Raise e => Raise e
  end.

(** The built-in classes that derive from BaseException and not from
    Exception: an [except Exception] clause lets them through. *)
Definition NOT_EXCEPTION : list string :=
  ["KeyboardInterrupt"; "SystemExit"; "GeneratorExit"; "CancelledError";
   "BaseExceptionGroup"].

Definition caught_by_except_Exception (e : PyExc) : bool :=
  negb (bool_decide (exc_type e ∈ NOT_EXCEPTION)).

(** [try: body  except Exception as e: handler(e)] *)
Definition try_except {A} (body : Result A) (handler : PyExc -> Result A) : Result A :=
  match body with
  | Ok a => Ok a
  | Raise e => if caught_by_except_Exception e then handler e else Raise e
  end.

(** What an f-string field shows for a value that is a str or None. *)
Definition fmt (o : option string) : string :=
  match o with
  | Some s => s
  | None => "None"
  end.

(** data_science_concepts.json, as preprocess.py writes it and as
    knowledge_base.py and ingest.py read it back: a list whose items are
    dicts with the keys chapter, title and concepts, or plain strings.  A
    key of a dict may be absent; chapter and title may be null. *)
Inductive Field : Type :=
  | Absent
  | Null
  | Text (s : string).

Record ChapterEntry : Type := mkChapterEntry {
  entry_chapter : Field;
  entry_title : Field;
  entry_concepts : option (list string)
}.

Inductive Entry : Type :=
  | EntryChapter (c : ChapterEntry)
  | EntryNote (note : string).

(** [concept.replace("'", "")] *)
Fixpoint remove_quotes (s : string) : string :=
  match s with
  | EmptyString => EmptyString
  | String c s' =>
      if ascii_dec c Str.SQUOTE then remove_quotes s' else String c (remove_quotes s')
  end.

(* ===================================================================== *)
(** ** config.py                                                          *)
(* ===================================================================== *)

Module Config.

Definition required_vars : list string :=
  ["QDRANT_URL"; "NEO4J_URI"; "NEO4J_USERNAME"; "NEO4J_PASSWORD"; "NEO4J_DATABASE"].

(** [os.getenv(var, default)] on the environment left by [load_dotenv()]. *)
Definition getenv (env : gmap string string) (var : string) (default : option string)
  : option string :=
  match env !! var with
  | Some value => Some value
  | None => default
  end.

(** Truth value of what [os.getenv] gives: None and the empty str are false. *)
Definition truthy (o : option string) : bool :=
  match o with
  | Some (String _ _) => true
  | _ => false
  end.

(** [def validate_environment()]; EnvironmentError is OSError. *)
Definition validate_environment (env : gmap string string) : Result bool :=
  let missing := List.filter (fun var => negb (truthy (getenv env var None))) required_vars in
  match missing with
  | [] => Ok true
  | _ :: _ =>
      Raise (mkExc "OSError"
               ("Missing required environment variables: " ++ Str.join ", " missing))
  end.

(** The arguments with which [initialize_config] builds the clients. *)
Record Settings : Type := mkSettings {
  cfg_qdrant_url : option string;
  cfg_qdrant_api_key : option string;
  cfg_collection_name : string;
  cfg_neo4j_database : option string;
  cfg_neo4j_uri : option string;
  cfg_neo4j_auth : option string * option string;
  cfg_embedding_model : string
}.

(** The module-level names of config.py (lines 16-21), bound once, when
    the module is imported. *)
Record Globals : Type := mkGlobals {
  QDRANT_URL : option string;
  QDRANT_API_KEY : option string;
  neo4j_uri : option string;
  neo4j_user : option string;
  neo4j_password : option string
}.

(** What importing config.py leaves, from the environment at that moment
    (after [load_dotenv()]). *)
Definition import_module (env_at_import : gmap string string) : Globals :=
  mkGlobals (getenv env_at_import "QDRANT_URL" (Some "http://localhost:6333"))
            (getenv env_at_import "QDRANT_API_KEY" None)
            (getenv env_at_import "NEO4J_URI" None)
            (getenv env_at_import "NEO4J_USERNAME" None)
            (getenv env_at_import "NEO4J_PASSWORD" None).

(** [def initialize_config()]: [env] is the environment when the function
    is called; the check and NEO4J_DATABASE read it, the other settings are
    the module-level names. *)
Definition initialize_config (globals : Globals) (env : gmap string string)
  : Result Settings :=
  _ ← validate_environment env;
  mret (mkSettings (QDRANT_URL globals)
                   (QDRANT_API_KEY globals)
                   "machine-learning"
                   (getenv env "NEO4J_DATABASE" None)
                   (neo4j_uri globals)
                   (neo4j_user globals, neo4j_password globals)
                   "all-MiniLM-L6-v2").

End Config.

(* ===================================================================== *)
(** ** preprocess.py                                                      *)
(* ===================================================================== *)

Module Preprocess.

Definition PDF_DIR : string := "ML-DS-TEXTBOOKS".

Definition DASH : ascii := ascii_of_nat 45.
Definition STAR : ascii := ascii_of_nat 42.
Definition DOT : ascii := ascii_of_nat 46.
Definition HASH : ascii := ascii_of_nat 35.
Definition NEWLINE : ascii := ascii_of_nat 10.

(** [s.endswith(suffix)] *)
Fixpoint endswith (suffix s : string) : bool :=
  if String.eqb s suffix then true
  else match s with
       | EmptyString => false
       | String _ s' => endswith suffix s'
       end.

(** [def gather_data()]: the first name of the listing that ends with
    ".pdf"; a loop that finds none falls off the end and returns None. *)
Definition gather_data (listdir : string -> Result (list string))
  : Result (option string) :=
  files ← listdir PDF_DIR;
  mret (List.find (endswith ".pdf") files).

(** The loop over the pages: [if page_text: text += page_text + "\n\n"] *)
Fixpoint extract_pages (pages : list (Result string)) (text : string) : Result string :=
  match pages with
  | [] => Ok text
  | page :: rest =>
      match page with
      | Ok page_text =>
          extract_pages rest
            (match page_text with
             | EmptyString => text
             | _ => text ++ page_text ++ Str.NL ++ Str.NL
             end)
      | Raise e => Raise e
      end
  end.

(** [def preprocess_data(file_path)].  [read_pdf path] opens and parses the
    file and gives, per page, what [extract_text()] returns or raises. *)
Definition preprocess_data (read_pdf : string -> Result (list (Result string)))
           (file_path : option string) : Result string :=
  try_except
    (match file_path with
     | None => Raise (TypeError "expected str, bytes or os.PathLike object, not NoneType")
     | Some path => pages ← read_pdf path; extract_pages pages EmptyString
     end)
    (fun _ => Ok EmptyString).

(** [text.split("\n")] *)
Fixpoint split_lines (s : string) : list string :=
  match s with
  | EmptyString => [EmptyString]
  | String c rest =>
      if ascii_dec c NEWLINE then EmptyString :: split_lines rest
      else match split_lines rest with
           | first :: others => String c first :: others
           | [] => [String c EmptyString]
           end
  end.

(** [\d] *)
Definition is_digit (c : ascii) : bool :=
  let n := nat_of_ascii c in (48 <=? n)%nat && (n <=? 57)%nat.

(** [re.match(r'^\d+\.', line)]: one digit or more, then a dot. *)
Fixpoint numbered_from (seen_digit : bool) (line : string) : bool :=
  match line with
  | EmptyString => false
  | String c rest =>
      if is_digit c then numbered_from true rest
      else seen_digit && bool_decide (c = DOT)
  end.

Definition is_numbered (line : string) : bool := numbered_from false line.

(** The class [[-*\d.\s]]. *)
Definition is_marker (c : ascii) : bool :=
  bool_decide (c = DASH) || bool_decide (c = STAR) || is_digit c
  || bool_decide (c = DOT) || Str.isspace c.

(** [re.sub(r'^[-*\d.\s]+', '', line)] *)
Fixpoint strip_markers (line : string) : string :=
  match line with
  | EmptyString => EmptyString
  | String c rest => if is_marker c then strip_markers rest else line
  end.

(** [line.startswith(c)] for a one-character [c]. *)
Definition startswith_char (c : ascii) (line : string) : bool :=
  match line with
  | String d _ => bool_decide (c = d)
  | EmptyString => false
  end.

(** [re.match(r'^(chapter|here|the following)', line.lower())] *)
Definition is_heading (line : string) : bool :=
  let l := Str.lower line in
  Str.starts_with "chapter" l || Str.starts_with "here" l
  || Str.starts_with "the following" l.

Definition nonempty (s : string) : bool :=
  match s with EmptyString => false | String _ _ => true end.

(** The body of [for line in concepts_text.split("\n")]. *)
Definition clean_line (concepts : list string) (raw : string) : list string :=
  let line := Str.strip raw in
  if nonempty line
     && (startswith_char DASH line || startswith_char STAR line || is_numbered line)
  then
    let concept := Str.strip (strip_markers line) in
    if nonempty concept then concepts ++ [concept] else concepts
  else if nonempty line && negb (startswith_char HASH line) && negb (is_heading line)
  then concepts ++ [line]
  else concepts.

(** Lines 150-160 of [extract_entities_relationships]: the concepts read
    off the text of a response. *)
Definition clean_concepts (concepts_text : string) : list string :=
  foldl clean_line [] (split_lines concepts_text).

(** A chapter as [identify_chapters] gives it: number and title may be
    None, the content is a str. *)
Record Chapter : Type := mkChapter {
  chapter_num : option string;
  chapter_title : option string;
  chapter_text : string
}.

Definition INDENT : string := "        ".

(** The f-string [prompt]. *)
Definition prompt (ch : Chapter) : string :=
  Str.NL
  ++ INDENT ++ "You are a specialized data science and machine learning concepts extractor. "
  ++ Str.NL
  ++ INDENT ++ "Analyze this chapter from a data science textbook and extract all data science and machine learning concepts, algorithms, techniques, and frameworks mentioned."
  ++ Str.NL
  ++ Str.NL
  ++ INDENT ++ "Chapter: " ++ fmt (chapter_num ch) ++ Str.NL
  ++ INDENT ++ "Title: " ++ fmt (chapter_title ch) ++ Str.NL
  ++ Str.NL
  ++ INDENT ++ "Return ONLY a well-formatted list of data science concepts, algorithms, and techniques with no explanation or commentary."
  ++ Str.NL
  ++ INDENT ++ "Format each item as a separate item (one per line)." ++ Str.NL
  ++ Str.NL
  ++ INDENT ++ "Here is the chapter:" ++ Str.NL
  ++ INDENT ++ chapter_text ch ++ Str.NL
  ++ INDENT ++ Str.NL
  ++ INDENT.

Definition as_field (o : option string) : Field :=
  match o with
  | Some s => Text s
  | None => Null
  end.

(** The note appended when a chapter could not be processed. *)
Definition error_note (ch : Chapter) : string :=
  "Chapter " ++ fmt (chapter_num ch) ++ ", " ++ fmt (chapter_title ch)
  ++ " - Error: Could not process chapter".

Section Extraction.

(** [generate i prompt]: the text of the response to the [i]-th request
    ([model.generate_content(prompt)] then [response.text]), or what one of
    the two raises. *)
Variable generate : nat -> string -> Result string.

(** The [try ... except Exception] of one chapter: what is appended to
    [results]. *)
Definition process_chapter (i : nat) (ch : Chapter) : Result Entry :=
  try_except
    (concepts_text ← generate i (prompt ch);
     mret (EntryChapter (mkChapterEntry (as_field (chapter_num ch))
                                        (as_field (chapter_title ch))
                                        (Some (clean_concepts concepts_text)))))
    (fun _ => Ok (EntryNote (error_note ch))).

(** [for i, (chapter_num, chapter_title, chapter_text) in enumerate(chapters)].
    The bookkeeping of the rate limits (clock readings and sleeps) writes
    nothing into [results] and is left out. *)
Fixpoint process_chapters (i : nat) (chapters : list Chapter) (results : list Entry)
  : Result (list Entry) :=
  match chapters with
  | [] => Ok results
  | ch :: rest =>
      entry ← process_chapter i ch;
      process_chapters (S i) rest (results ++ [entry])
  end.

(** [def extract_entities_relationships(text)], given what
    [identify_chapters(text)] returns. *)
Definition extract_entities_relationships
           (identify_chapters : string -> list Chapter) (text : string)
  : Result (list Entry) :=
  process_chapters 0 (identify_chapters text) [].

End Extraction.

End Preprocess.

(* ===================================================================== *)
(** ** knowledge_base.py                                                  *)
(* ===================================================================== *)

Module KnowledgeBase.

(** [concept_vars[concept]] on the dict kept in insertion order. *)
Fixpoint lookup_var (concept : string) (concept_vars : list (string * string))
  : option string :=
  match concept_vars with
  | [] => None
  | (k, var_name) :: rest =>
      if String.eqb k concept then Some var_name else lookup_var concept rest
  end.

(** [chapter.get('concepts', [])]; a str item has no [get]. *)
Definition get_concepts (item : Entry) : Result (list string) :=
  match item with
  | EntryChapter c => Ok (default [] (entry_concepts c))
  | EntryNote _ => Raise (AttributeError "'str' object has no attribute 'get'")
  end.

(** The body of the inner loop of the first pass; the state is
    [(concept_vars, concept_counter)]. *)
Definition register (state : list (string * string) * nat) (concept : string)
  : list (string * string) * nat :=
  let concept := remove_quotes concept in
  match lookup_var concept (fst state) with
  | Some _ => state
  | None => (fst state ++ [(concept, ("cpt" ++ pretty (snd state))%string)],
             S (snd state))
  end.

(** First pass: all unique concepts of all chapters. *)
Fixpoint first_pass (data : list Entry) (state : list (string * string) * nat)
  : Result (list (string * string) * nat) :=
  match data with
  | [] => Ok state
  | item :: rest =>
      concepts ← get_concepts item;
      first_pass rest (foldl register state concepts)
  end.

(** [chapter.get("title", "untitled")] and [chapter.get("chapter", idx)],
    as the f-string shows them. *)
Definition show_title (f : Field) : string :=
  match f with
  | Absent => "untitled"
  | Null => "None"
  | Text s => s
  end.

Definition show_number (idx : nat) (f : Field) : string :=
  match f with
  | Absent => pretty idx
  | Null => "None"
  | Text s => s
  end.

Definition chapter_query (idx : nat) (item : Entry) : Result string :=
  match item with
  | EntryChapter c =>
      Ok ("CREATE (c" ++ pretty idx ++ ":Chapter {title: '" ++ show_title (entry_title c)
          ++ "', chapterNumber: '" ++ show_number idx (entry_chapter c) ++ "'})")%string
  | EntryNote _ => Raise (AttributeError "'str' object has no attribute 'get'")
  end.

(** [for idx, chapter in enumerate(data, start=1)]: the chapter nodes. *)
Fixpoint chapter_nodes (idx : nat) (data : list Entry) (queries : list string)
  : Result (list string) :=
  match data with
  | [] => Ok queries
  | item :: rest =>
      q ← chapter_query idx item;
      chapter_nodes (S idx) rest (queries ++ [q])
  end.

Definition concept_query (entry : string * string) : string :=
  "CREATE (" ++ snd entry ++ ":Concept {name: '" ++ remove_quotes (fst entry) ++ "'})".

(** The inner loop of the relationships of the chapter [c{idx}]. *)
Fixpoint chapter_relationships (concept_vars : list (string * string)) (idx : nat)
         (concepts : list string) (queries : list string) : Result (list string) :=
  match concepts with
  | [] => Ok queries
  | concept :: rest =>
      match lookup_var (remove_quotes concept) concept_vars with
      | Some concept_var =>
          chapter_relationships concept_vars idx rest
            (queries ++ [("CREATE (c" ++ pretty idx ++ ")-[:CONTAINS]->("
                          ++ concept_var ++ ")")%string])
      | None => Raise (KeyError (Str.repr (remove_quotes concept)))
      end
  end.

Fixpoint relationships (concept_vars : list (string * string)) (idx : nat)
         (data : list Entry) (queries : list string) : Result (list string) :=
  match data with
  | [] => Ok queries
  | item :: rest =>
      concepts ← get_concepts item;
      queries' ← chapter_relationships concept_vars idx concepts queries;
      relationships concept_vars (S idx) rest queries'
  end.

(** The list [queries] at the end of [create_cypher_queries]. *)
Definition build_queries (data : list Entry) : Result (list string) :=
  state ← first_pass data ([], 1%nat);
  queries ← chapter_nodes 1 data [];
  let queries := queries ++ map concept_query (fst state) in
  relationships (fst state) 1 data queries.

(** [def create_cypher_queries(json_file_path)], on the loaded [data]. *)
Definition create_cypher_queries (data : list Entry) : Result string :=
  queries ← build_queries data;
  mret (Str.join Str.NL queries).

End KnowledgeBase.

(* ===================================================================== *)
(** ** ingest.py                                                          *)
(* ===================================================================== *)

Module Ingest.

(** [chapter["concepts"]] *)
Definition concepts_of (item : Entry) : Result (list string) :=
  match item with
  | EntryChapter c =>
      match entry_concepts c with
      | Some concepts => Ok concepts
      | None => Raise (KeyError "'concepts'")
      end
  | EntryNote _ => Raise (TypeError "string indices must be integers, not 'str'")
  end.

(** [for chapter in data: all_concepts.extend(chapter["concepts"])] *)
Fixpoint all_concepts (data : list Entry) (acc : list string) : Result (list string) :=
  match data with
  | [] => Ok acc
  | item :: rest =>
      concepts ← concepts_of item;
      all_concepts rest (acc ++ concepts)
  end.

(** The characters of the literal in [any(char in concept for char in ...)]:
    backquote, brackets, parentheses, braces, double quote, single quote. *)
Definition SPECIAL : list ascii :=
  map ascii_of_nat [96; 91; 93; 40; 41; 123; 125; 34; 39]%nat.

Definition clean (concept : string) : string :=
  if existsb (fun char => Str.has_char char concept) SPECIAL
  then remove_quotes concept
  else concept.

(** [def create_concept_list()], on the loaded [data]:
    [list(set(cleaned_concepts))] then [sort()].  The order in which the
    set is listed does not show after the sort. *)
Definition create_concept_list (data : list Entry) : Result (list string) :=
  concepts ← all_concepts data [];
  mret (merge_sort String.le (remove_dups (map clean concepts))).

(** [range(0, stop, step)], for a positive [step]. *)
Fixpoint range_from (fuel start stop step : nat) : list nat :=
  match fuel with
  | O => []
  | S fuel' =>
      if (start <? stop)%nat then start :: range_from fuel' (start + step) stop step
      else []
  end.

Definition range0 (stop step : nat) : list nat := range_from stop 0 stop step.

(** [[items[i:i+size] for i in range(0, len(items), size)]] *)
Definition batches {A} (size : nat) (items : list A) : list (list A) :=
  map (fun i => take size (drop i items)) (range0 (length items) size).

Definition qdrant_batch_size : nat := 100.
Definition neo4j_batch_size : nat := 50.


End Ingest.

(* ===================================================================== *)
(** ** scripts.py: the other entry points                                 *)
(* ===================================================================== *)

Module ScriptsOffline.

(** The function objects the names of scripts.py are bound to. *)
Inductive pyfun : Type :=
  | preprocess_gather_data
  | preprocess_preprocess_data
  | preprocess_extract_entities_relationships
  | preprocess_save_results
  | knowledge_base_create_cypher_queries
  | ingest_ingest_to_qdrant_and_neo4j
  | ingest_validate_environment
  | retrieval_retrieve
  | retrieval_generate_answer_with_mistral
  | scripts_extract_entities_relationships
  | scripts_create_knowledge_base
  | scripts_ingest_data
  | scripts_retrieve.

(** One binding per imported name and per [def], in the order of the file. *)
Definition bindings : list (string * pyfun) :=
  [ ("gather_data", preprocess_gather_data);
    ("preprocess_data", preprocess_preprocess_data);
    ("extract_entities_relationships", preprocess_extract_entities_relationships);
    ("save_results", preprocess_save_results);
    ("create_cypher_queries", knowledge_base_create_cypher_queries);
    ("ingest_to_qdrant_and_neo4j", ingest_ingest_to_qdrant_and_neo4j);
    ("validate_environment", ingest_validate_environment);
    ("retrieve", retrieval_retrieve);
    ("generate_answer_with_mistral", retrieval_generate_answer_with_mistral);
    ("extract_entities_relationships", scripts_extract_entities_relationships);
    ("create_knowledge_base", scripts_create_knowledge_base);
    ("ingest_data", scripts_ingest_data);
    ("retrieve", scripts_retrieve) ].

(** The module namespace once every statement has run: a later binding of
    a name replaces the earlier one. *)
Definition namespace : gmap string pyfun :=
  foldl (fun ns b => <[fst b := snd b]> ns) ∅ bindings.

(** [os.path.join(a, b)] (POSIX) for two components. *)
Definition path_join (a : string) (b : option string) : Result string :=
  match b with
  | None =>
      Raise (TypeError "join() argument must be str, bytes, or os.PathLike object, not 'NoneType'")
  | Some b =>
      if Str.starts_with "/" b then Ok b
      else if negb (Preprocess.nonempty a) || Preprocess.endswith "/" a
           then Ok (a ++ b)%string
           else Ok (a ++ "/" ++ b)%string
  end.

(** A file written by [save_results]: its name and the data dumped. *)
Definition FileWrite : Type := (string * list Entry)%type.

Section WithFiles.

Variable env : gmap string string.
Variable listdir : string -> Result (list string).
Variable read_pdf : string -> Result (list (Result string)).
Variable generate : nat -> string -> Result string.

(** preprocess.py, [identify_chapters]: its regular expressions are not
    modelled; the statements hold whatever it returns. *)
Variable identify_chapters : string -> list Preprocess.Chapter.

(** ingest.py, [ingest_to_qdrant_and_neo4j(file_path)]: returns or raises. *)
Variable ingest_to_qdrant_and_neo4j : string -> Result unit.

(** [extract_entities_relationships(text)]: the name is looked up in the
    module namespace when the call runs. *)
Definition call_extract (text : string) : Result (list Entry) :=
  match namespace !! "extract_entities_relationships" with
  | Some preprocess_extract_entities_relationships =>
      Preprocess.extract_entities_relationships generate identify_chapters text
  | Some scripts_extract_entities_relationships =>
      Raise (TypeError
        "extract_entities_relationships() takes 0 positional arguments but 1 was given")
  | Some _ => Raise (TypeError "positional arguments do not match")
  | None => Raise (NameError "name 'extract_entities_relationships' is not defined")
  end.

(** [def extract_entities_relationships()] of scripts.py: the files it
    writes. *)
Definition extract_entities_relationships : Result (list FileWrite) :=
  file_path ← Preprocess.gather_data listdir;
  text ← Preprocess.preprocess_data read_pdf file_path;
  results ← call_extract text;
  mret [("data_science_concepts.json", results)].

(** [async def ingest_data(PDF_DIR)] of scripts.py: the lines it prints
    itself.  The [validate_environment] it calls is the copy in ingest.py,
    line for line the one of config.py. *)
Definition ingest_data (pdf_dir : string) : Result (list string) :=
  _ ← Config.validate_environment env;
  file_path ← Preprocess.gather_data listdir;
  file_path ← path_join pdf_dir file_path;
  printed ← try_except
               (_ ← ingest_to_qdrant_and_neo4j file_path; mret [])
               (fun e => Ok [("Error in ingestion: " ++ exc_msg e)%string]);
  mret (printed ++ ["All files processed successfully."]).

End WithFiles.

End ScriptsOffline.

(* ===================================================================== *)
(** ** Vocabulary of the statements about the offline path                *)
(* ===================================================================== *)

(** The variable is set to a str that is not empty. *)
Definition is_set (env : gmap string string) (var : string) : Prop :=
  exists c rest, env !! var = Some (String c rest).

(** [name] ends with ".pdf". *)
Definition is_pdf_name (name : string) : Prop :=
  exists stem : string, name = (stem ++ ".pdf")%string.

(** The text of a document whose pages have the texts [texts]: the pages
    that are not empty, in order, each followed by an empty line. *)
Fixpoint pages_text (texts : list string) : string :=
  match texts with
  | [] => EmptyString
  | t :: rest =>
      match t with
      | EmptyString => pages_text rest
      | _ => t ++ Str.NL ++ Str.NL ++ pages_text rest
      end
  end.

(** A concept as the cleaning leaves it: not empty, no white space at
    either end, no bullet character in front, on one line. *)
Definition clean_concept (c : string) : Prop :=
  c <> EmptyString
  /\ (forall ch, Str.first_char c = Some ch ->
                 Str.isspace ch = false /\ ch <> Preprocess.DASH /\ ch <> Preprocess.STAR)
  /\ (forall ch, Str.last_char c = Some ch -> Str.isspace ch = false)
  /\ Str.has_char Preprocess.NEWLINE c = false.

(** What one chapter leaves in the results: the dict with the concepts read
    off the response, or the note when the request failed. *)
Definition entry_for (generate : nat -> string -> Result string) (i : nat)
           (ch : Preprocess.Chapter) : Entry :=
  match generate i (Preprocess.prompt ch) with
  | Ok concepts_text =>
      EntryChapter (mkChapterEntry (Preprocess.as_field (Preprocess.chapter_num ch))
                                   (Preprocess.as_field (Preprocess.chapter_title ch))
                                   (Some (Preprocess.clean_concepts concepts_text)))
  | Raise _ => EntryNote (Preprocess.error_note ch)
  end.

(** The concepts listed by the chapter dicts, chapter after chapter, with
    repetitions; a dict without the key lists none. *)
Definition listed_concepts (chapters : list ChapterEntry) : list string :=
  concat (map (fun c => default [] (entry_concepts c)) chapters).

(** The name of the [k]-th concept variable. *)
Definition concept_var (k : nat) : string := ("cpt" ++ pretty k)%string.

(** The names held by the state [(concept_vars, concept_counter)] of the
    first pass, and what the pass keeps true of the state. *)
Definition kb_keys (state : list (string * string) * nat) : list string :=
  map fst (fst state).

Definition kb_invariant (state : list (string * string) * nat) : Prop :=
  NoDup (kb_keys state)
  /\ map snd (fst state) = map concept_var (seq 1 (length (fst state)))
  /\ snd state = S (length (fst state)).

(** Every item of the data is a dict that has the key concepts. *)
Definition has_concepts (c : ChapterEntry) : Prop := entry_concepts c <> None.

(** [l] without its repetitions: of each item the first occurrence stays. *)
Fixpoint first_occurrences (l : list string) : list string :=
  match l with
  | [] => []
  | x :: rest =>
      x :: List.filter (fun y => negb (String.eqb y x)) (first_occurrences rest)
  end.

(** The place of the first [x] in [l], counted from 0. *)
Fixpoint position (x : string) (l : list string) : nat :=
  match l with
  | [] => 0
  | y :: rest => if String.eqb y x then 0 else S (position x rest)
  end.

(** The concept names of a knowledge base: the listed concepts without
    their single quotes, each once, in the order they are first met. *)
Definition concept_names (chapters : list ChapterEntry) : list string :=
  first_occurrences (map remove_quotes (listed_concepts chapters)).

(** The line of the chapter at place [i] (from 0): node [c(i+1)]. *)
Definition chapter_line (i : nat) (c : ChapterEntry) : string :=
  ("CREATE (c" ++ pretty (S i) ++ ":Chapter {title: '"
   ++ match entry_title c with
      | Absent => "untitled"
      | Null => "None"
      | Text title => title
      end
   ++ "', chapterNumber: '"
   ++ match entry_chapter c with
      | Absent => pretty (S i)
      | Null => "None"
      | Text number => number
      end
   ++ "'})")%string.

(** The line of the concept name at place [k] (from 0): node [cpt(k+1)]. *)
Definition concept_line (k : nat) (name : string) : string :=
  ("CREATE (" ++ concept_var (S k) ++ ":Concept {name: '" ++ name ++ "'})")%string.

(** The line that relates the chapter at place [i] to a concept it lists. *)
Definition relationship_line (names : list string) (i : nat) (concept : string)
  : string :=
  ("CREATE (c" ++ pretty (S i) ++ ")-[:CONTAINS]->("
   ++ concept_var (S (position (remove_quotes concept) names)) ++ ")")%string.

(** The lines of the knowledge base of [chapters]: the chapters, then the
    concept names, then the relationships chapter by chapter. *)
Definition expected_lines (chapters : list ChapterEntry) : list string :=
  imap chapter_line chapters
  ++ imap concept_line (concept_names chapters)
  ++ concat (imap (fun i c => map (relationship_line (concept_names chapters) i)
                                  (default [] (entry_concepts c)))
                  chapters).

(* ===================================================================== *)
(** ** Concrete inputs of the offline path                                *)
(* ===================================================================== *)

Module SampleOffline.

Definition env : gmap string string :=
  <["QDRANT_URL" := "https://qdrant.example:6333"]>
    (<["NEO4J_URI" := "bolt://localhost:7687"]>
       (<["NEO4J_USERNAME" := "neo4j"]>
          (<["NEO4J_PASSWORD" := "secret"]> {[ "NEO4J_DATABASE" := "neo4j" ]}))).

(** QDRANT_URL is set but empty, NEO4J_DATABASE is not set. *)
Definition env_incomplete : gmap string string :=
  <["QDRANT_URL" := EmptyString]>
    (<["NEO4J_URI" := "bolt://localhost:7687"]>
       (<["NEO4J_USERNAME" := "neo4j"]> {[ "NEO4J_PASSWORD" := "secret" ]})).

Definition settings : Config.Settings :=
  Config.mkSettings (Some "https://qdrant.example:6333") None "machine-learning"
    (Some "neo4j") (Some "bolt://localhost:7687") (Some "neo4j", Some "secret")
    "all-MiniLM-L6-v2".

(** The second hit has a payload without the key "text". *)
Definition hits_without_text : list ScoredPoint :=
  [ Sample.hit "p1" 0.875%float "Linear regression fits a line.";
    mkPoint "p2" 0.75%float (Some {[ "metadata" := PyNone ]}) ].

Definition no_text_world : World :=
  mkWorld (embed_query Sample.world) (fun _ _ _ => Ok hits_without_text)
          (neo4j_database Sample.world) (neo4j_graph Sample.world)
          (chat_complete Sample.world).

(** The backend answers with a response that has no choice. *)
Definition no_choice_world : World :=
  mkWorld (embed_query Sample.world) (qdrant_search Sample.world)
          (neo4j_database Sample.world) (neo4j_graph Sample.world)
          (fun _ => Ok (mkResponse [])).

Definition chapters : list Preprocess.Chapter :=
  [ Preprocess.mkChapter (Some "1") (Some "Regression") "Chapter 1 ...";
    Preprocess.mkChapter (Some "2") (Some "Clustering") "Chapter 2 ..." ].

Definition identify_chapters (text : string) : list Preprocess.Chapter := chapters.

(** The first request is answered, the second one fails. *)
Definition generate (i : nat) (prompt : string) : Result string :=
  match i with
  | O => Ok ("Here are the concepts:" ++ Str.NL ++ "- Linear regression" ++ Str.NL
             ++ "2. Bayes' theorem ")%string
  | _ => Raise (mkExc "ResourceExhausted" "429 quota exceeded")
  end.

Definition results : list Entry :=
  [ EntryChapter (mkChapterEntry (Text "1") (Text "Regression")
                                 (Some ["Linear regression"; "Bayes' theorem"]));
    EntryNote "Chapter 2, Clustering - Error: Could not process chapter" ].

Definition chapter_entries : list ChapterEntry :=
  [ mkChapterEntry (Text "1") (Text "Regression") (Some ["Bayes' theorem"; "SVM"]);
    mkChapterEntry Absent Absent None;
    mkChapterEntry Null Null (Some ["SVM"; "Bayes theorem"; "k-means (Lloyd)"]) ].

Definition listing_chapter : ChapterEntry :=
  mkChapterEntry (Text "3") (Text "Models")
                 (Some ["SVM"; "Bayes' theorem"; "k-means (Lloyd)"; "SVM"]).

(** Nothing is set yet when config.py is imported. *)
Definition env_unset : gmap string string := ∅.

(** The settings when config.py was imported under [env_unset] and
    [initialize_config] is called under [env]: the check passes, the URL is
    the default and the driver gets no URI and no credentials. *)
Definition settings_of_late_environment : Config.Settings :=
  Config.mkSettings (Some "http://localhost:6333") None "machine-learning"
    (Some "neo4j") None (None, None) "all-MiniLM-L6-v2".

End SampleOffline.

(* ===================================================================== *)
(** ** Facts about the string primitives                                  *)
(* ===================================================================== *)

Section StrFacts.





Lemma lstrip_split s :
  exists l : string, s = (l ++ Str.lstrip s)%string /\ Str.all_space l = true.
Proof.
  induction s as [|c s (l & Hl & Hs)]; simpl.
  - exists EmptyString. split; reflexivity.
  - destruct (Str.isspace c) eqn:E.
    + exists (String c l). split; [exact (f_equal (String c) Hl)|].
      simpl. rewrite E. exact Hs.
    + exists EmptyString. split; reflexivity.
Qed.

Lemma rstrip_split s :
  exists r : string, s = (Str.rstrip s ++ r)%string /\ Str.all_space r = true.
Proof.
  induction s as [|c s (r & Hr & Hs)]; simpl.
  - exists EmptyString. split; reflexivity.
  - destruct (Str.rstrip s) as [|d t] eqn:E.
    + change (s = r) in Hr. subst r. destruct (Str.isspace c) eqn:Ec.
      * exists (String c s). simpl. rewrite Ec, Hs. split; reflexivity.
      * exists s. split; [reflexivity | exact Hs].
    + exists r. split; [exact (f_equal (String c) Hr) | exact Hs].
Qed.

Lemma lstrip_first s c :
  Str.first_char (Str.lstrip s) = Some c -> Str.isspace c = false.
Proof.
  induction s as [|a s IH]; simpl; [discriminate|].
  destruct (Str.isspace a) eqn:E; [exact IH|].
  simpl. intros [= <-]. exact E.
Qed.

Lemma rstrip_first s c :
  Str.first_char s = Some c -> Str.isspace c = false ->
  Str.first_char (Str.rstrip s) = Some c.
Proof.
  destruct s as [|a s]; simpl; [discriminate|].
  intros [= ->] Hc. destruct (Str.rstrip s); [rewrite Hc|]; reflexivity.
Qed.

Lemma rstrip_first_inv s c :
  Str.first_char (Str.rstrip s) = Some c -> Str.first_char s = Some c.
Proof.
  destruct s as [|a s]; simpl; [discriminate|].
  destruct (Str.rstrip s); [destruct (Str.isspace a); [discriminate|]|];
    simpl; intros [= <-]; reflexivity.
Qed.

Lemma rstrip_last s c :
  Str.last_char (Str.rstrip s) = Some c -> Str.isspace c = false.
Proof.
  induction s as [|a s IH]; simpl; [discriminate|].
  destruct (Str.rstrip s) as [|d t] eqn:E.
  - destruct (Str.isspace a) eqn:Ea; simpl; [discriminate|].
    intros [= <-]. exact Ea.
  - intros H. apply IH. exact H.
Qed.

Lemma strip_trimmed s : trimmed_of s (Str.strip s).
Proof.
  unfold trimmed_of, Str.strip. repeat split.
  - destruct (lstrip_split s) as (l & Hl & Hls).
    destruct (rstrip_split (Str.lstrip s)) as (r & Hr & Hrs).
    exists l, r. repeat split; [|assumption..].
    rewrite <- Hr. exact Hl.
  - intros c H. apply rstrip_first_inv in H. eapply lstrip_first, H.
  - apply rstrip_last.
Qed.

End StrFacts.

(* ===================================================================== *)
(** ** The join with line feeds; containment up to case                   *)
(* ===================================================================== *)

Lemma List_filter_sublist {A} (f : A -> bool) (l : list A) :
  List.filter f l `sublist_of` l.
Proof.
  induction l as [|x l IH]; simpl; [constructor|].
  destruct (f x); [apply sublist_skip | apply sublist_cons]; exact IH.
Qed.

Lemma join_newline_joined (texts : list string) :
  newline_joined texts (Str.join Str.NL texts).
Proof.
  induction texts as [|t [|u rest] IH]; [constructor | constructor|].
  change (Str.join Str.NL (t :: u :: rest))
    with (t ++ String LF (Str.join Str.NL (u :: rest)))%string.
  constructor. exact IH.
Qed.

Lemma newline_joined_unique (texts : list string) (s s' : string) :
  newline_joined texts s -> newline_joined texts s' -> s = s'.
Proof.
  intros H. revert s'. induction H as [|t|t u rest s H IH]; intros s' H';
    inversion H'; subst; try reflexivity.
  f_equal. f_equal. apply IH. assumption.
Qed.










(* ===================================================================== *)
(** ** The two loops and the join                                         *)
(* ===================================================================== *)

Section Loops.

Lemma as_strs_map i (ss : list string) : as_strs i (map PyStr ss) = Ok ss.
Proof.
  revert i. induction ss as [|s ss IH]; intros i; simpl; [reflexivity|].
  rewrite IH. reflexivity.
Qed.

Lemma as_strs_inv i items (ss : list string) :
  as_strs i items = Ok ss -> items = map PyStr ss.
Proof.
  revert i ss. induction items as [|v items IH]; intros i ss; simpl.
  - intros [= <-]. reflexivity.
  - destruct v; try discriminate.
    destruct (as_strs (S i) items) as [ss'|] eqn:E; [|discriminate].
    intros [= <-]. simpl. f_equal. eapply IH, E.
Qed.

Lemma py_join_strs sep (ss : list string) :
  py_join sep (map PyStr ss) = Ok (Str.join sep ss).
Proof. unfold py_join. rewrite as_strs_map. reflexivity. Qed.

Lemma py_join_inv sep items s :
  py_join sep items = Ok s ->
  exists ss, items = map PyStr ss /\ s = Str.join sep ss.
Proof.
  unfold py_join. destruct (as_strs 0 items) as [ss|] eqn:E; [|discriminate].
  intros [= <-]. exists ss. split; [eapply as_strs_inv, E | reflexivity].
Qed.

Lemma subscript_has_text r t :
  has_text r t <-> subscript (point_payload r) "text" = Ok (PyStr t).
Proof.
  unfold has_text, subscript. split.
  - intros (m & -> & ->). reflexivity.
  - destruct (point_payload r) as [m|]; [|discriminate].
    destruct (m !! "text") as [v|] eqn:E; [|discriminate].
    intros [= ->]. exists m. split; [reflexivity | exact E].
Qed.

Lemma collect_payload_texts_ok hits (texts : list string) acc :
  Forall2 has_text hits texts ->
  Retrieval.collect_payload_texts hits acc = Ok (acc ++ map PyStr texts).
Proof.
  intros H. revert acc. induction H as [|r t hits texts Hr _ IH]; intros acc; simpl.
  - rewrite app_nil_r. reflexivity.
  - apply subscript_has_text in Hr. rewrite Hr, IH, <- app_assoc. reflexivity.
Qed.

Lemma collect_payload_texts_inv hits acc (texts : list string) :
  Retrieval.collect_payload_texts hits acc = Ok (map PyStr texts) ->
  exists found, texts = take (length acc) texts ++ found /\ Forall2 has_text hits found
                /\ map PyStr texts = acc ++ map PyStr found.
Proof.
  revert acc. induction hits as [|r hits IH]; intros acc; simpl.
  - intros [= ->]. exists []. rewrite length_map, firstn_all, !app_nil_r.
    repeat split. constructor.
  - destruct (subscript (point_payload r) "text") as [v|] eqn:E; [|discriminate].
    intros H. destruct (IH _ H) as (found & _ & Hf & Heq).
    assert (exists t, v = PyStr t) as [t ->].
    { assert (In v (map PyStr texts)) as Hin.
      { rewrite Heq, <- app_assoc. apply in_or_app. right. left. reflexivity. }
      apply in_map_iff in Hin as (t & <- & _). eauto. }
    exists (t :: found).
    assert (map PyStr texts = acc ++ map PyStr (t :: found)) as Heq'.
    { rewrite Heq, <- app_assoc. reflexivity. }
    split; [|split; [|exact Heq']].
    + apply (f_equal (drop (length acc))) in Heq'.
      rewrite drop_app_length in Heq'.
      rewrite <- (take_drop (length acc) texts) at 1. f_equal.
      rewrite <- fmap_drop in Heq'.
      revert Heq'. generalize (drop (length acc) texts) (t :: found).
      induction l as [|x l IHl]; intros [|y l']; simpl; try discriminate; [reflexivity|].
      intros [= -> Hl]. f_equal. apply IHl, Hl.
    + constructor; [apply subscript_has_text, E | exact Hf].
Qed.

Lemma return_rows query nodes :
  map Cypher.return_row
      (List.filter (fun c => Cypher.has_label "Chunk" c && Cypher.where_clause query c) nodes)
  = map (fun t => {[ "text" := PyStr t ]}) (matching_chunk_texts query nodes).
Proof.
  unfold matching_chunk_texts, chunk_texts.
  induction nodes as [|c nodes IH]; simpl; [reflexivity|].
  unfold chunk_text, Cypher.where_clause, Cypher.return_row in *.
  destruct (Cypher.has_label "Chunk" c); simpl; [|exact IH].
  destruct (node_props c !! "text") as [t|] eqn:E; simpl; [|exact IH].
  destruct (Str.contains (Str.lower query) (Str.lower t)); simpl; [|exact IH].
  rewrite E, IH. reflexivity.
Qed.

Lemma collect_record_texts_rows (texts : list string) acc :
  Retrieval.collect_record_texts (map (fun t => {[ "text" := PyStr t ]}) texts) acc
  = Ok (acc ++ map PyStr texts).
Proof.
  revert acc. induction texts as [|t texts IH]; intros acc; simpl.
  - rewrite app_nil_r. reflexivity.
  - rewrite lookup_singleton_eq, IH, <- app_assoc. reflexivity.
Qed.

Lemma collect_record_texts_match query nodes :
  Retrieval.collect_record_texts (Cypher.match_chunks query nodes) []
  = Ok (map PyStr (take Cypher.LIMIT (matching_chunk_texts query nodes))).
Proof.
  unfold Cypher.match_chunks.
  rewrite return_rows, <- fmap_take.
  apply (collect_record_texts_rows _ []).
Qed.

End Loops.

(* ===================================================================== *)
(** ** How [retrieve] runs                                                *)
(* ===================================================================== *)

Section RetrieveRuns.

Variable w : World.

Lemma collect_payload_texts_has_text hits (texts : list string) :
  Retrieval.collect_payload_texts hits [] = Ok (map PyStr texts) ->
  Forall2 has_text hits texts.
Proof.
  intros H. destruct (collect_payload_texts_inv _ _ _ H) as (found & Ht & Hf & _).
  simpl in Ht. subst found. exact Hf.
Qed.

(** The embedding call raises: nothing else is called. *)
Lemma retrieve_embed_raises query e log :
  embed_query w query = Raise e ->
  Retrieval.retrieve w query log = (Raise e, log ++ [EmbedQuery query]).
Proof.
  intros H. unfold Retrieval.retrieve, mbind, M_bind, remote. rewrite H. reflexivity.
Qed.

(** The search raises: the graph store is not reached. *)
Lemma retrieve_search_raises query v e log :
  embed_query w query = Ok v ->
  qdrant_search w Retrieval.collection_name v Retrieval.SEARCH_LIMIT = Raise e ->
  Retrieval.retrieve w query log
  = (Raise e, log ++ [EmbedQuery query;
                      QdrantSearch Retrieval.collection_name v Retrieval.SEARCH_LIMIT]).
Proof.
  intros Hv Hs. unfold Retrieval.retrieve, mbind, M_bind, remote.
  rewrite Hv, Hs, <- app_assoc. reflexivity.
Qed.

(** Embedding and search answer, every hit carries a text: the outcome is
    the outcome of the graph query. *)
Lemma retrieve_after_search query v hits (texts : list string) log :
  embed_query w query = Ok v ->
  qdrant_search w Retrieval.collection_name v Retrieval.SEARCH_LIMIT = Ok hits ->
  Forall2 has_text hits texts ->
  Retrieval.retrieve w query log
  = (match neo4j_graph w (neo4j_database w) with
     | Ok nodes =>
         Ok (PyTuple [PyStr (Str.join Str.NL texts);
                      PyList (map PyStr (take Cypher.LIMIT
                                           (matching_chunk_texts query nodes)))])
     | Raise e => Raise e
     end,
     log ++ [EmbedQuery query;
             QdrantSearch Retrieval.collection_name v Retrieval.SEARCH_LIMIT;
             Neo4jRun (neo4j_database w) query]).
Proof.
  intros Hv Hs Ht.
  unfold Retrieval.retrieve, Retrieval.session_run, mbind, M_bind, mret, M_ret,
    remote, lift.
  rewrite Hv, Hs, (collect_payload_texts_ok _ _ [] Ht), app_nil_l.
  rewrite py_join_strs, <- !app_assoc. simpl app.
  destruct (neo4j_graph w (neo4j_database w)) as [nodes|e]; [|reflexivity].
  rewrite collect_record_texts_match. reflexivity.
Qed.

(** Whenever [retrieve] returns, it returns a pair built that way. *)
Lemma retrieve_ok_inv query log out :
  result_of (Retrieval.retrieve w query log) = Ok out ->
  exists v hits texts nodes,
    embed_query w query = Ok v
    /\ qdrant_search w Retrieval.collection_name v Retrieval.SEARCH_LIMIT = Ok hits
    /\ Forall2 has_text hits texts
    /\ neo4j_graph w (neo4j_database w) = Ok nodes
    /\ out = PyTuple [PyStr (Str.join Str.NL texts);
                      PyList (map PyStr (take Cypher.LIMIT
                                           (matching_chunk_texts query nodes)))].
Proof.
  intros H.
  destruct (embed_query w query) as [v|e] eqn:Hv;
    [|rewrite (retrieve_embed_raises _ _ _ Hv) in H; discriminate].
  destruct (qdrant_search w Retrieval.collection_name v Retrieval.SEARCH_LIMIT)
    as [hits|e] eqn:Hs;
    [|rewrite (retrieve_search_raises _ _ _ _ Hv Hs) in H; discriminate].
  destruct (Retrieval.collect_payload_texts hits []) as [items|e] eqn:Hc.
  - destruct (py_join Str.NL items) as [s|e] eqn:Hj.
    + destruct (py_join_inv _ _ _ Hj) as (texts & -> & ->).
      apply collect_payload_texts_has_text in Hc.
      rewrite (retrieve_after_search _ _ _ _ _ Hv Hs Hc) in H.
      destruct (neo4j_graph w (neo4j_database w)) as [nodes|e]; [|discriminate].
      injection H as <-. exists v, hits, texts, nodes. repeat split; assumption.
    + unfold Retrieval.retrieve, mbind, M_bind, remote, lift, result_of in H.
      rewrite Hv, Hs, Hc, Hj in H. discriminate.
  - unfold Retrieval.retrieve, mbind, M_bind, remote, lift, result_of in H.
    rewrite Hv, Hs, Hc in H. discriminate.
Qed.

End RetrieveRuns.

(* ===================================================================== *)
(** ** The sample world at work                                           *)
(* ===================================================================== *)

Example py_str_list :
  py_str (PyList [PyStr "a b"; PyStr "c"]) = "['a b', 'c']".
Proof. reflexivity. Qed.

Example py_repr_quote :
  py_repr (PyStr "it's") = String Str.DQUOTE ("it's" ++ String Str.DQUOTE EmptyString).
Proof. reflexivity. Qed.

Example strip_answer :
  Str.strip (Str.NL ++ "  two words " ++ Str.NL) = "two words".
Proof. reflexivity. Qed.

Example lower_mixed : Str.lower "Logistic REGRESSION [1]" = "logistic regression [1]".
Proof. reflexivity. Qed.

Example contains_middle : Str.contains "gress" "regression" = true.
Proof. reflexivity. Qed.

Example contains_not : Str.contains "xyzzy" "regression" = false.
Proof. reflexivity. Qed.

Example join_three : Str.join ", " ["a"; "b"; "c"] = "a, b, c".
Proof. reflexivity. Qed.

Example join_none_raises :
  py_join Str.NL [PyStr "a"; PyNone]
  = Raise (TypeError "sequence item 1: expected str instance, NoneType found").
Proof. reflexivity. Qed.

Example unpack_pair : Scripts.unpack2 (PyTuple [PyStr "a"; PyList []]) = Ok (PyStr "a", PyList []).
Proof. reflexivity. Qed.

(** The prompt built from what [retrieve] returned for "regression": the
    graph context appears as the text of a Python list. *)
Example user_prompt_regression :
  Retrieval.user_prompt (PyStr "regression") (PyStr "v1")
    (PyList [PyStr "g1"; PyStr "g2"])
  = ("Based on the following contexts extracted from similar questions and graph data:"
       ++ Str.NL ++ "---" ++ Str.NL ++ "Vector DB context:" ++ Str.NL ++ "v1"
       ++ Str.NL ++ "---" ++ Str.NL ++ "Neo4j context:" ++ Str.NL ++ "['g1', 'g2']"
       ++ Str.NL ++ "---" ++ Str.NL ++ "Question:" ++ Str.NL ++ "regression"
       ++ Str.NL ++ Str.NL ++ "Provide a concise, helpful answer.")%string.
Proof. reflexivity. Qed.

Lemma sample_hits_have_texts : Forall2 has_text Sample.hits Sample.texts.
Proof.
  repeat constructor; eexists; (split; [reflexivity|]); apply lookup_singleton_eq.
Qed.

Lemma sample_world_respects_limit : respects_limit Sample.world.
Proof.
  intros collection v k found. simpl.
  destruct (String.eqb collection "machine-learning"); [|discriminate].
  intros [= <-]. rewrite length_take. apply Nat.le_min_l.
Qed.

Example sample_retrieve_regression :
  Retrieval.retrieve Sample.world "regression" []
  = (Ok (PyTuple
           [ PyStr ("Linear regression fits a line." ++ Str.NL
                    ++ "Loss functions measure error." ++ Str.NL
                    ++ "Linear regression fits a line.");
             PyList [ PyStr "Linear regression fits a line.";
                      PyStr "Logistic REGRESSION is a classifier." ] ]),
     [ EmbedQuery "regression";
       QdrantSearch "machine-learning" Sample.query_vector 5;
       Neo4jRun "neo4j" "regression" ]).
Proof. vm_compute. reflexivity. Qed.

(* ===================================================================== *)
(** ** Failure of a store: what [retrieve] does                           *)
(* ===================================================================== *)

(** C1, as stated, fails: in the world where the Qdrant search raises
    (and embedding and graph store answer), [retrieve] does not complete
    with an empty vector context; it raises the search's exception. *)
Lemma search_failure_aborts_retrieve :
  embed_query Sample.qdrant_down "regression" = Ok Sample.query_vector
  /\ neo4j_graph Sample.qdrant_down "neo4j" = Ok Sample.nodes
  /\ is_ok (result_of (Retrieval.retrieve Sample.qdrant_down "regression" [])) = false
  /\ result_of (Retrieval.retrieve Sample.qdrant_down "regression" [])
     = Raise Sample.unavailable.
Proof. vm_compute. repeat split; reflexivity. Qed.

(** C1, amended.  For a query whose embedding succeeds:
    - the search answers with no hit and the graph query answers:
      [retrieve] completes, the vector context is the empty string, and the
      graph context is the one any retrieval of the same query against the
      same graph returns;
    - the graph query matches nothing, and the search answers with hits
      that each carry a text: [retrieve] completes, the graph context is
      empty and the vector context is the texts of the hits, one line feed
      between each two;
    - the search raises: [retrieve] raises that exception, the graph store
      is not queried and no context is returned;
    - the graph query raises, after a search whose hits each carry a text:
      [retrieve] raises that exception and no context is returned. *)
Theorem store_outcomes_of_retrieve (w : World) (query : string) (v : list float)
        (log : list Call) :
  embed_query w query = Ok v ->
  let search := qdrant_search w Retrieval.collection_name v Retrieval.SEARCH_LIMIT in
  let graph := neo4j_graph w (neo4j_database w) in
  let searched := log ++ [EmbedQuery query;
                          QdrantSearch Retrieval.collection_name v Retrieval.SEARCH_LIMIT] in
  (forall nodes,
      search = Ok [] -> graph = Ok nodes ->
      exists graph_context,
        result_of (Retrieval.retrieve w query log)
        = Ok (PyTuple [PyStr EmptyString; graph_context])
        /\ forall w' log' out',
             neo4j_graph w' (neo4j_database w') = Ok nodes ->
             result_of (Retrieval.retrieve w' query log') = Ok out' ->
             exists vector_context', out' = PyTuple [vector_context'; graph_context])
  /\ (forall hits texts nodes,
         search = Ok hits -> Forall2 has_text hits texts ->
         graph = Ok nodes -> Cypher.match_chunks query nodes = [] ->
         exists vector_context graph_context,
           result_of (Retrieval.retrieve w query log)
           = Ok (PyTuple [PyStr vector_context; graph_context])
           /\ newline_joined texts vector_context
           /\ empty_context graph_context)
  /\ (forall e,
         search = Raise e ->
         Retrieval.retrieve w query log = (Raise e, searched))
  /\ (forall hits texts e,
         search = Ok hits -> Forall2 has_text hits texts -> graph = Raise e ->
         Retrieval.retrieve w query log
         = (Raise e, searched ++ [Neo4jRun (neo4j_database w) query])).
Proof.
  intros Hv search graph searched. subst search graph searched.
  split; [|split; [|split]].
  - intros nodes Hs Hg. eexists.
    rewrite (retrieve_after_search w _ _ _ [] log Hv Hs ltac:(constructor)), Hg.
    split; [reflexivity|].
    intros w' log' out' Hg' Hout.
    destruct (retrieve_ok_inv w' _ _ _ Hout) as (v' & hits' & texts' & nodes' & H).
    destruct H as (_ & _ & _ & Hn & ->). rewrite Hg' in Hn. injection Hn as <-.
    eexists. reflexivity.
  - intros hits texts nodes Hs Ht Hg Hm.
    exists (Str.join Str.NL texts), (PyList []).
    rewrite (retrieve_after_search w _ _ _ _ log Hv Hs Ht), Hg.
    split; [|split; [apply join_newline_joined | right; reflexivity]].
    pose proof (collect_record_texts_match query nodes) as Hrows.
    rewrite Hm in Hrows. simpl in Hrows. injection Hrows as <-. reflexivity.
  - intros e Hs. apply retrieve_search_raises; assumption.
  - intros hits texts e Hs Ht Hg.
    rewrite (retrieve_after_search w _ _ _ _ log Hv Hs Ht), Hg, <- app_assoc.
    reflexivity.
Qed.

Lemma store_outcomes_of_retrieve_witness :
  embed_query Sample.qdrant_empty "regression" = Ok Sample.query_vector
  /\ (exists graph_context,
         result_of (Retrieval.retrieve Sample.qdrant_empty "regression" [])
         = Ok (PyTuple [PyStr EmptyString; graph_context])
         /\ exists vector_context',
              result_of (Retrieval.retrieve Sample.world "regression" [])
              = Ok (PyTuple [vector_context'; graph_context]))
  /\ (exists vector_context graph_context,
         result_of (Retrieval.retrieve Sample.world "xyzzy" [])
         = Ok (PyTuple [PyStr vector_context; graph_context])
         /\ vector_context
            = ("Linear regression fits a line."
                 ++ String LF ("Loss functions measure error."
                                 ++ String LF "Linear regression fits a line."))%string
         /\ empty_context graph_context)
  /\ Retrieval.retrieve Sample.neo4j_down "regression" []
     = (Raise Sample.unavailable,
        [EmbedQuery "regression";
         QdrantSearch "machine-learning" Sample.query_vector 5;
         Neo4jRun "neo4j" "regression"]).
Proof.
  split; [reflexivity|]. split; [|split].
  - destruct (proj1 (store_outcomes_of_retrieve Sample.qdrant_empty "regression"
                       Sample.query_vector [] eq_refl)
                Sample.nodes eq_refl eq_refl) as (gc & Hres & Hsame).
    exists gc. split; [exact Hres|].
    destruct (Hsame Sample.world [] _ eq_refl (f_equal fst sample_retrieve_regression))
      as (vc' & Hout).
    exists vc'. rewrite <- Hout. exact (f_equal fst sample_retrieve_regression).
  - destruct (proj1 (proj2 (store_outcomes_of_retrieve Sample.world "xyzzy"
                              Sample.query_vector [] eq_refl))
                Sample.hits Sample.texts Sample.nodes eq_refl
                sample_hits_have_texts eq_refl eq_refl)
      as (vc & gc & Hres & Hjoin & Hempty).
    exists vc, gc. split; [exact Hres|]. split; [|exact Hempty].
    apply (newline_joined_unique Sample.texts); [exact Hjoin|].
    repeat constructor.
  - exact (proj2 (proj2 (proj2 (store_outcomes_of_retrieve Sample.neo4j_down "regression"
                                  Sample.query_vector [] eq_refl)))
             Sample.hits Sample.texts Sample.unavailable eq_refl
             sample_hits_have_texts eq_refl).
Defined.

(* ===================================================================== *)
(** ** The type of the graph context                                      *)
(* ===================================================================== *)

(** Whatever the world, a pair returned by [retrieve] has a str first
    and a list second. *)
Lemma retrieve_returns_str_and_list (w : World) (query : string) (log : list Call)
      (out : pyval) :
  result_of (Retrieval.retrieve w query log) = Ok out ->
  exists (vector_context : string) (graph_context : list pyval),
    out = PyTuple [PyStr vector_context; PyList graph_context].
Proof.
  intros H. destruct (retrieve_ok_inv w _ _ _ H) as (v & hits & texts & nodes & Hout).
  destruct Hout as (_ & _ & _ & _ & ->). eauto.
Qed.

(** C2 at a failing input: both stores are reachable and the graph query
    matches two chunks; [retrieve] does not raise, its first component is a
    str, and its second component is a Python list, not a str. *)
Theorem graph_context_is_a_list_not_a_str :
  exists vector_context graph_context,
    result_of (Retrieval.retrieve Sample.world "regression" [])
    = Ok (PyTuple [vector_context; graph_context])
    /\ is_str vector_context = true
    /\ graph_context = PyList [PyStr "Linear regression fits a line.";
                               PyStr "Logistic REGRESSION is a classifier."]
    /\ is_str graph_context = false.
Proof.
  do 2 eexists. rewrite sample_retrieve_regression. simpl.
  split; [reflexivity|]. repeat split.
Qed.

(* ===================================================================== *)
(** ** The entry point of scripts.py                                      *)
(* ===================================================================== *)

Lemma scripts_retrieve_is_bound_to_the_wrapper :
  Scripts.module_globals !! "retrieve" = Some Scripts.scripts_retrieve.
Proof. unfold Scripts.module_globals. apply lookup_insert_eq. Qed.

(** C3 on the code: for every world, recursion limit, query and call log,
    the wrapper [retrieve] of scripts.py ends in RecursionError with the
    call log unchanged: the name [retrieve] it calls is bound to the wrapper
    itself, so neither the orchestrator's [retrieve] nor the answer
    generation is ever called and no answer is returned or printed. *)
Theorem scripts_retrieve_recurses_into_itself (w : World) (recursion_limit : nat)
        (query : string) (log : list Call) :
  Scripts.retrieve w recursion_limit query log = (Raise RecursionError, log)
  /\ Scripts.main w recursion_limit query = (Raise RecursionError, []).
Proof.
  assert (forall depth l, Scripts.retrieve w depth query l = (Raise RecursionError, l))
    as Hrec.
  { induction depth as [|depth IH]; intros l; [reflexivity|].
    simpl. unfold Scripts.call_retrieve.
    rewrite scripts_retrieve_is_bound_to_the_wrapper.
    unfold mbind, M_bind. rewrite IH. reflexivity. }
  split; [apply Hrec|]. unfold Scripts.main. rewrite Hrec. reflexivity.
Qed.

(* ===================================================================== *)
(** ** Failure of the embedding call                                      *)
(* ===================================================================== *)

(** C4, as stated, fails: when the embedding call raises
    ServiceUnavailable, [retrieve] raises ServiceUnavailable, not an
    exception of class EmbeddingFailure. *)
Lemma embedding_failure_keeps_its_class :
  embed_query Sample.embedding_down "regression" = Raise Sample.unavailable
  /\ ~ raises_type (result_of (Retrieval.retrieve Sample.embedding_down "regression" []))
                   "EmbeddingFailure".
Proof.
  split; [reflexivity|]. intros (e & He & Hty).
  vm_compute in He. injection He as <-. vm_compute in Hty. discriminate.
Qed.

(** C4, amended.  If the embedding call raises [e] for a query, [retrieve]
    raises that same [e]; the embedding call is the only call that leaves
    the process (neither store is queried); and in a caller that awaits
    [retrieve] without handling the exception, nothing after the await runs,
    answer generation included. *)
Theorem embedding_exception_propagates (w : World) (query : string) (e : PyExc)
        (log : list Call) :
  embed_query w query = Raise e ->
  Retrieval.retrieve w query log = (Raise e, log ++ [EmbedQuery query])
  /\ forall (B : Type) (rest_of_caller : pyval -> M B),
       (Retrieval.retrieve w query ≫= rest_of_caller) log
       = (Raise e, log ++ [EmbedQuery query]).
Proof.
  intros H. split; [apply retrieve_embed_raises, H|].
  intros B k. unfold mbind at 1, M_bind at 1.
  rewrite (retrieve_embed_raises w _ _ log H). reflexivity.
Qed.

Lemma embedding_exception_propagates_witness :
  embed_query Sample.embedding_down "regression" = Raise Sample.unavailable
  /\ Retrieval.retrieve Sample.embedding_down "regression" []
     = (Raise Sample.unavailable, [EmbedQuery "regression"]).
Proof.
  split; [reflexivity|].
  exact (proj1 (embedding_exception_propagates Sample.embedding_down "regression"
                  Sample.unavailable [] eq_refl)).
Defined.

(* ===================================================================== *)
(** ** The two context blocks                                             *)
(* ===================================================================== *)



(** C5, as stated, fails: in the world where the graph store is down,
    the vector search for "regression" succeeds with three hits that carry
    texts, yet [retrieve] raises and returns no vector context at all. *)
Lemma vector_context_lost_when_graph_fails :
  embed_query Sample.neo4j_down "regression" = Ok Sample.query_vector
  /\ qdrant_search Sample.neo4j_down "machine-learning" Sample.query_vector 5
     = Ok Sample.hits
  /\ Forall2 has_text Sample.hits Sample.texts
  /\ result_of (Retrieval.retrieve Sample.neo4j_down "regression" [])
     = Raise Sample.unavailable
  /\ ~ exists vector_context graph_context,
        result_of (Retrieval.retrieve Sample.neo4j_down "regression" [])
        = Ok (PyTuple [vector_context; graph_context]).
Proof.
  split; [reflexivity|]. split; [reflexivity|]. split; [exact sample_hits_have_texts|].
  assert (result_of (Retrieval.retrieve Sample.neo4j_down "regression" [])
          = Raise Sample.unavailable) as H by (vm_compute; reflexivity).
  split; [exact H|]. intros (vc & gc & H'). rewrite H in H'. discriminate.
Qed.

(** C5, amended.  When the embedding and the search answer, every hit
    carries a text, the graph query answers and Qdrant honours [limit]:
    [retrieve] asks the collection "machine-learning" once, with the query
    vector and limit 5, and returns as vector context the texts of the hits
    with one line feed between each two, in the order of the hits,
    duplicates kept, at most 5 of them; the graph store has no part in it:
    with any other graph that answers, the vector context is the same. *)
Theorem vector_context_is_joined_hit_texts (w : World) (query : string)
        (v : list float) (hits : list ScoredPoint) (texts : list string)
        (nodes : list Node) (log : list Call) :
  respects_limit w ->
  embed_query w query = Ok v ->
  qdrant_search w "machine-learning" v 5 = Ok hits ->
  Forall2 has_text hits texts ->
  neo4j_graph w (neo4j_database w) = Ok nodes ->
  exists vector_context graph_context,
    Retrieval.retrieve w query log
    = (Ok (PyTuple [PyStr vector_context; graph_context]),
       log ++ [EmbedQuery query;
               QdrantSearch "machine-learning" v 5;
               Neo4jRun (neo4j_database w) query])
    /\ newline_joined texts vector_context
    /\ (length texts <= 5)%nat
    /\ (forall nodes' w',
           embed_query w' query = Ok v ->
           qdrant_search w' "machine-learning" v 5 = Ok hits ->
           neo4j_graph w' (neo4j_database w') = Ok nodes' ->
           exists graph_context',
             result_of (Retrieval.retrieve w' query log)
             = Ok (PyTuple [PyStr vector_context; graph_context'])).
Proof.
  intros Hlim Hv Hs Ht Hg. exists (Str.join Str.NL texts). eexists.
  split; [|split; [|split]].
  - rewrite (retrieve_after_search w _ _ _ _ log Hv Hs Ht), Hg. reflexivity.
  - apply join_newline_joined.
  - rewrite <- (Forall2_length _ _ _ Ht). eapply Hlim, Hs.
  - intros nodes' w' Hv' Hs' Hg'. eexists.
    rewrite (retrieve_after_search w' _ _ _ _ log Hv' Hs' Ht), Hg'. reflexivity.
Qed.

Lemma vector_context_is_joined_hit_texts_witness :
  respects_limit Sample.world
  /\ (exists graph_context,
         Retrieval.retrieve Sample.world "regression" []
         = (Ok (PyTuple
                  [PyStr ("Linear regression fits a line."
                            ++ String LF ("Loss functions measure error."
                                            ++ String LF "Linear regression fits a line."));
                   graph_context]),
            [EmbedQuery "regression";
             QdrantSearch "machine-learning" Sample.query_vector 5;
             Neo4jRun "neo4j" "regression"]))
  /\ (length Sample.texts <= 5)%nat.
Proof.
  split; [exact sample_world_respects_limit|].
  destruct (vector_context_is_joined_hit_texts Sample.world "regression"
              Sample.query_vector Sample.hits Sample.texts Sample.nodes []
              sample_world_respects_limit eq_refl eq_refl
              sample_hits_have_texts eq_refl) as (vc & gc & H1 & H2 & H3 & _).
  split; [|exact H3]. exists gc.
  rewrite <- (newline_joined_unique Sample.texts vc _ H2 ltac:(repeat constructor)).
  exact H1.
Defined.




(* ===================================================================== *)
(** ** Answer generation                                                  *)
(* ===================================================================== *)

(** C7, as stated, fails: when the backend raises SDKError (quota),
    [generate_answer_with_mistral] raises SDKError, not an exception of
    class GenerationFailure. *)
Lemma backend_failure_keeps_its_class :
  (forall request, chat_complete Sample.mistral_quota request = Raise Sample.quota)
  /\ ~ raises_type
         (result_of (Retrieval.generate_answer_with_mistral Sample.mistral_quota
                       (PyStr "regression") (PyStr "a") (PyList []) None None None []))
         "GenerationFailure".
Proof.
  split; [reflexivity|]. intros (e & He & Hty).
  vm_compute in He. injection He as <-. vm_compute in Hty. discriminate.
Qed.

(** C7, amended.  If the chat-completion call raises [e],
    [generate_answer_with_mistral] raises that same [e] (the upstream
    exception itself, with its own class), after exactly one call to the
    backend, and returns no answer. *)
Theorem backend_exception_propagates (w : World)
        (query milvus_context neo4j_context : pyval)
        (model : option string) (temperature : option float) (max_tokens : option Z)
        (e : PyExc) (log : list Call) :
  chat_complete w
    (mkRequest (default Retrieval.DEFAULT_MODEL model)
               (Retrieval.build_messages query milvus_context neo4j_context)
               (default Retrieval.DEFAULT_TEMPERATURE temperature)
               (default Retrieval.DEFAULT_MAX_TOKENS max_tokens)) = Raise e ->
  Retrieval.generate_answer_with_mistral w query milvus_context neo4j_context
    model temperature max_tokens log
  = (Raise e,
     log ++ [ChatComplete
               (mkRequest (default Retrieval.DEFAULT_MODEL model)
                          (Retrieval.build_messages query milvus_context neo4j_context)
                          (default Retrieval.DEFAULT_TEMPERATURE temperature)
                          (default Retrieval.DEFAULT_MAX_TOKENS max_tokens))]).
Proof.
  intros H. unfold Retrieval.generate_answer_with_mistral, mbind, M_bind, remote.
  rewrite H. reflexivity.
Qed.

Lemma backend_exception_propagates_witness :
  result_of (Retrieval.generate_answer_with_mistral Sample.mistral_quota
               (PyStr "regression") (PyStr "a") (PyList []) None None None [])
  = Raise Sample.quota
  /\ length (log_of (Retrieval.generate_answer_with_mistral Sample.mistral_quota
                       (PyStr "regression") (PyStr "a") (PyList []) None None None []))
     = 1%nat.
Proof.
  rewrite (backend_exception_propagates Sample.mistral_quota
             (PyStr "regression") (PyStr "a") (PyList []) None None None
             Sample.quota [] eq_refl).
  split; reflexivity.
Defined.

(** C8.  Called without [model], [temperature] and [max_tokens],
    [generate_answer_with_mistral] sends one request with model
    "mistral-small-latest", temperature 0.3 and max_tokens 300, whose
    messages are exactly two: the fixed system instruction, and a user turn
    in which the block labelled "Vector DB context:" holds the vector
    context, the block labelled "Neo4j context:" holds the graph context,
    and the question follows under "Question:".  When the backend answers
    with a first choice whose content is [text], the function returns [text]
    without the white space at its two ends. *)
#[warnings="-inexact-float"]
Theorem generate_answer_request_and_result (w : World) (query : string)
        (milvus_context neo4j_context : pyval) (text : string)
        (more_choices : list Choice) (log : list Call) :
  chat_complete w
    (mkRequest "mistral-small-latest"
       [mkMessage "system"
          "You are a helpful assistant that answers questions regarding a data science textbook.";
        mkMessage "user"
          (Retrieval.user_prompt (PyStr query) milvus_context neo4j_context)]
       0.3%float 300%Z)
  = Ok (mkResponse (mkChoice (Some text) :: more_choices)) ->
  Retrieval.generate_answer_with_mistral w (PyStr query) milvus_context neo4j_context
    None None None log
  = (Ok (PyStr (Str.strip text)),
     log ++ [ChatComplete
               (mkRequest "mistral-small-latest"
                  [mkMessage "system"
                     "You are a helpful assistant that answers questions regarding a data science textbook.";
                   mkMessage "user"
                     (Retrieval.user_prompt (PyStr query) milvus_context neo4j_context)]
                  0.3%float 300%Z)])
  /\ trimmed_of text (Str.strip text)
  /\ exists opening : string,
       Retrieval.user_prompt (PyStr query) milvus_context neo4j_context
       = (opening
            ++ "Vector DB context:" ++ Str.NL ++ py_str milvus_context ++ Str.NL
            ++ "---" ++ Str.NL
            ++ "Neo4j context:" ++ Str.NL ++ py_str neo4j_context ++ Str.NL
            ++ "---" ++ Str.NL
            ++ "Question:" ++ Str.NL ++ query ++ Str.NL
            ++ Str.NL ++ "Provide a concise, helpful answer.")%string.
Proof.
  intros H. split; [|split].
  - unfold Retrieval.generate_answer_with_mistral, mbind, M_bind, remote, lift.
    simpl default. unfold Retrieval.build_messages, Retrieval.system_prompt,
      Retrieval.DEFAULT_MODEL, Retrieval.DEFAULT_TEMPERATURE,
      Retrieval.DEFAULT_MAX_TOKENS.
    rewrite H. reflexivity.
  - apply strip_trimmed.
  - exists ("Based on the following contexts extracted from similar questions and graph data:"
              ++ Str.NL ++ "---" ++ Str.NL)%string.
    reflexivity.
Qed.

#[warnings="-inexact-float"]
Lemma generate_answer_request_and_result_witness :
  Retrieval.generate_answer_with_mistral Sample.world (PyStr "regression")
    (PyStr "a") (PyList [PyStr "b"]) None None None []
  = (Ok (PyStr "Regression fits a model to data."),
     [ChatComplete
        (mkRequest "mistral-small-latest"
           [mkMessage "system"
              "You are a helpful assistant that answers questions regarding a data science textbook.";
            mkMessage "user"
              (Retrieval.user_prompt (PyStr "regression") (PyStr "a") (PyList [PyStr "b"]))]
           0.3%float 300%Z)]).
Proof.
  exact (proj1 (generate_answer_request_and_result Sample.world "regression"
                  (PyStr "a") (PyList [PyStr "b"])
                  (" Regression fits a model to data." ++ Str.NL)%string [] []
                  eq_refl)).
Defined.

(* ===================================================================== *)
(** ** The empty query                                                     *)
(* ===================================================================== *)





(* ===================================================================== *)
(** ** config.py: the environment check                                   *)
(* ===================================================================== *)

Lemma truthy_is_set env var :
  Config.truthy (Config.getenv env var None) = true <-> is_set env var.
Proof.
  unfold Config.getenv, is_set. destruct (env !! var) as [[|c rest]|]; simpl; split;
    try discriminate; try (intros (c' & rest' & [=])); eauto.
Qed.

Lemma validate_environment_cases env :
  let missing := List.filter (fun var => negb (Config.truthy (Config.getenv env var None)))
                             Config.required_vars in
  (missing = [] /\ Config.validate_environment env = Ok true)
  \/ (missing <> [] /\
      Config.validate_environment env
      = Raise (mkExc "OSError"
                 ("Missing required environment variables: " ++ Str.join ", " missing))).
Proof.
  intros missing. unfold Config.validate_environment. fold missing.
  destruct missing; [left | right]; split; try reflexivity; discriminate.
Qed.

Lemma validate_environment_ok_inv (env : gmap string string) (b : bool) :
  Config.validate_environment env = Ok b ->
  b = true /\ Forall (is_set env) Config.required_vars.
Proof.
  destruct (validate_environment_cases env) as [[Hm ->]|[Hm ->]]; [|discriminate].
  intros [= <-]. split; [reflexivity|].
  apply Forall_forall. intros var Hin.
  apply truthy_is_set. destruct (Config.truthy _) eqn:E; [reflexivity|].
  assert (In var []) as []. rewrite <- Hm. apply filter_In.
  split; [apply list_elem_of_In, Hin | rewrite E; reflexivity].
Qed.

Lemma validate_environment_complete (env : gmap string string) :
  Forall (is_set env) Config.required_vars ->
  Config.validate_environment env = Ok true.
Proof.
  intros Hall.
  destruct (validate_environment_cases env) as [[Hm ->]|[Hm ->]]; [reflexivity|].
  exfalso. apply Hm.
  destruct (List.filter _ _) as [|var rest] eqn:E; [reflexivity|].
  assert (In var (var :: rest)) as Hin by (left; reflexivity).
  rewrite <- E in Hin. apply filter_In in Hin as [Hin Hf].
  rewrite Forall_forall in Hall. apply list_elem_of_In, Hall, truthy_is_set in Hin.
  rewrite Hin in Hf. discriminate.
Qed.

(** X1.  [validate_environment] returns True exactly when each of the five
    required variables is set to a non-empty value; a variable set to the
    empty string counts as missing.  It never returns False: when a
    variable is missing it raises. *)
Theorem validate_environment_ok_iff (env : gmap string string) :
  (Config.validate_environment env = Ok true
   <-> Forall (is_set env) Config.required_vars)
  /\ Config.validate_environment env <> Ok false.
Proof.
  split; [split|].
  - intros H. apply validate_environment_ok_inv in H. apply H.
  - apply validate_environment_complete.
  - intros H. apply validate_environment_ok_inv in H as [H _]. discriminate.
Qed.

(** X2.  When [validate_environment] raises, it raises OSError
    (EnvironmentError) and the message lists, after the fixed opening and
    separated by ", ", exactly the required variables that are unset or
    empty, in the order of [required_vars]. *)
Theorem validate_environment_error_lists_missing (env : gmap string string)
        (e : PyExc) :
  Config.validate_environment env = Raise e ->
  exists missing,
    e = mkExc "OSError"
          ("Missing required environment variables: " ++ Str.join ", " missing)
    /\ missing <> []
    /\ missing `sublist_of` Config.required_vars
    /\ forall var, var ∈ missing <-> var ∈ Config.required_vars /\ ~ is_set env var.
Proof.
  intros H. destruct (validate_environment_cases env) as [[_ Hv]|[Hm Hv]];
    rewrite Hv in H; [discriminate|]. injection H as <-.
  exists (List.filter (fun var => negb (Config.truthy (Config.getenv env var None)))
                      Config.required_vars).
  split; [reflexivity|]. split; [exact Hm|]. split.
  - apply List_filter_sublist.
  - intros var. rewrite !list_elem_of_In, filter_In, <- truthy_is_set.
    destruct (Config.truthy _); simpl; intuition congruence.
Qed.

Lemma validate_environment_error_lists_missing_witness :
  exists missing,
    mkExc "OSError" "Missing required environment variables: QDRANT_URL, NEO4J_DATABASE"
    = mkExc "OSError"
        ("Missing required environment variables: " ++ Str.join ", " missing)
    /\ missing <> [].
Proof.
  destruct (validate_environment_error_lists_missing SampleOffline.env_incomplete
              (mkExc "OSError"
                 "Missing required environment variables: QDRANT_URL, NEO4J_DATABASE")
              eq_refl) as (missing & H1 & H2 & _).
  exists missing. split; assumption.
Defined.

(** X3.  Whenever [initialize_config] returns, the five required
    variables are set and non-empty in the environment of the call, the
    database name is the one of that environment and the collection is the
    one [retrieve] searches; the Qdrant URL and API key and the Neo4j URI,
    user and password are the values read when config.py was imported, the
    URL being http://localhost:6333 if QDRANT_URL was unset then.  When the
    environment is the same at import and at call, the URL handed to the
    client is therefore the environment's QDRANT_URL (the default does not
    decide) and URI, user and password are the environment's. *)
Theorem initialize_config_uses_the_environment
        (env_at_import env : gmap string string) (cfg : Config.Settings) :
  Config.initialize_config (Config.import_module env_at_import) env = Ok cfg ->
  Forall (is_set env) Config.required_vars
  /\ Config.cfg_neo4j_database cfg = env !! "NEO4J_DATABASE"
  /\ Config.cfg_collection_name cfg = Retrieval.collection_name
  /\ Config.cfg_qdrant_url cfg
     = Some (default "http://localhost:6333" (env_at_import !! "QDRANT_URL"))
  /\ Config.cfg_qdrant_api_key cfg = env_at_import !! "QDRANT_API_KEY"
  /\ Config.cfg_neo4j_uri cfg = env_at_import !! "NEO4J_URI"
  /\ Config.cfg_neo4j_auth cfg
     = (env_at_import !! "NEO4J_USERNAME", env_at_import !! "NEO4J_PASSWORD")
  /\ (env_at_import = env ->
      Config.cfg_qdrant_url cfg = env !! "QDRANT_URL"
      /\ Config.cfg_neo4j_uri cfg = env !! "NEO4J_URI"
      /\ Config.cfg_neo4j_auth cfg = (env !! "NEO4J_USERNAME", env !! "NEO4J_PASSWORD")).
Proof.
  unfold Config.initialize_config, mbind, Result_bind, mret, Result_ret.
  destruct (Config.validate_environment env) as [b|e] eqn:Hv; [|discriminate].
  apply validate_environment_ok_inv in Hv as [_ Hv].
  intros [= <-]. simpl. unfold Config.getenv.
  split; [exact Hv|].
  assert (is_set env "QDRANT_URL" /\ is_set env "NEO4J_DATABASE") as [Hurl Hdb].
  { unfold Config.required_vars in Hv.
    repeat match goal with H : Forall _ (_ :: _) |- _ => apply Forall_cons in H as [? H] end.
    split; assumption. }
  destruct Hdb as (c & r & Hdb). rewrite Hdb.
  split; [reflexivity|]. split; [reflexivity|].
  split; [destruct (env_at_import !! "QDRANT_URL"); reflexivity|].
  split; [destruct (env_at_import !! "QDRANT_API_KEY"); reflexivity|].
  split; [destruct (env_at_import !! "NEO4J_URI"); reflexivity|].
  split; [destruct (env_at_import !! "NEO4J_USERNAME"), (env_at_import !! "NEO4J_PASSWORD");
          reflexivity|].
  intros ->. destruct Hurl as (c' & r' & ->).
  split; [reflexivity|].
  split; [destruct (env !! "NEO4J_URI"); reflexivity|].
  destruct (env !! "NEO4J_USERNAME"), (env !! "NEO4J_PASSWORD"); reflexivity.
Qed.

Lemma initialize_config_uses_the_environment_witness :
  Config.initialize_config (Config.import_module SampleOffline.env) SampleOffline.env
  = Ok SampleOffline.settings
  /\ Config.cfg_qdrant_url SampleOffline.settings = SampleOffline.env !! "QDRANT_URL"
  /\ Config.initialize_config (Config.import_module SampleOffline.env_unset)
                              SampleOffline.env
     = Ok SampleOffline.settings_of_late_environment
  /\ Config.cfg_qdrant_url SampleOffline.settings_of_late_environment
     = Some "http://localhost:6333"
  /\ Config.cfg_neo4j_database SampleOffline.settings_of_late_environment
     = Some "neo4j".
Proof.
  split; [reflexivity|]. split.
  - exact (proj1 (proj2 (proj2 (proj2 (proj2 (proj2 (proj2 (proj2
             (initialize_config_uses_the_environment SampleOffline.env SampleOffline.env
                SampleOffline.settings eq_refl)))))))
             eq_refl)).
  - split; [reflexivity|].
    destruct (initialize_config_uses_the_environment SampleOffline.env_unset
                SampleOffline.env SampleOffline.settings_of_late_environment eq_refl)
      as (_ & Hdb & _ & Hurl & _).
    split; [exact Hurl | exact Hdb].
Defined.

(* ===================================================================== *)
(** ** retrieval.py: hits without a text, unusable responses, case        *)
(* ===================================================================== *)

Lemma subscript_raise_class d key e :
  subscript d key = Raise e -> exc_type e = "TypeError" \/ exc_type e = "KeyError".
Proof.
  unfold subscript. destruct d as [m|]; [destruct (m !! key)|]; intros [= <-]; auto.
Qed.

Lemma collect_payload_texts_raise_class hits acc e :
  Retrieval.collect_payload_texts hits acc = Raise e ->
  exc_type e = "TypeError" \/ exc_type e = "KeyError".
Proof.
  revert acc. induction hits as [|r hits IH]; intros acc; simpl; [discriminate|].
  destruct (subscript (point_payload r) "text") eqn:E; [apply IH|].
  intros [= <-]. eapply subscript_raise_class, E.
Qed.

Lemma as_strs_raise_class i items e :
  as_strs i items = Raise e -> exc_type e = "TypeError".
Proof.
  revert i. induction items as [|x items IH]; intros i; simpl; [discriminate|].
  destruct x; try (intros [= <-]; reflexivity).
  destruct (as_strs (S i) items) eqn:E; [discriminate|].
  intros [= <-]. eapply IH, E.
Qed.

(** X4.  If the embedding and the search answer but not every hit carries
    a str under [payload["text"]] (no payload, no such key, or a value that
    is not a str), [retrieve] raises TypeError or KeyError right after the
    search: the graph store is never queried. *)
Theorem retrieve_stops_at_hit_without_text (w : World) (query : string)
        (v : list float) (hits : list ScoredPoint) (log : list Call) :
  embed_query w query = Ok v ->
  qdrant_search w Retrieval.collection_name v Retrieval.SEARCH_LIMIT = Ok hits ->
  ~ (exists texts, Forall2 has_text hits texts) ->
  exists e,
    Retrieval.retrieve w query log
    = (Raise e, log ++ [EmbedQuery query;
                        QdrantSearch Retrieval.collection_name v Retrieval.SEARCH_LIMIT])
    /\ (exc_type e = "TypeError" \/ exc_type e = "KeyError").
Proof.
  intros Hv Hs Hno.
  unfold Retrieval.retrieve, Retrieval.session_run, mbind, M_bind, remote, lift.
  rewrite Hv, Hs.
  destruct (Retrieval.collect_payload_texts hits []) as [items|e] eqn:Hc.
  - destruct (py_join Str.NL items) as [s|e] eqn:Hj.
    + exfalso. apply Hno. destruct (py_join_inv _ _ _ Hj) as (texts & -> & _).
      exists texts. apply collect_payload_texts_has_text, Hc.
    + exists e. split; [rewrite <- app_assoc; reflexivity|]. left. unfold py_join in Hj.
      destruct (as_strs 0 items) eqn:E; [discriminate|].
      injection Hj as <-. eapply as_strs_raise_class, E.
  - exists e. split; [rewrite <- app_assoc; reflexivity|].
    eapply collect_payload_texts_raise_class, Hc.
Qed.

Lemma retrieve_stops_at_hit_without_text_witness :
  exists e,
    Retrieval.retrieve SampleOffline.no_text_world "regression" []
    = (Raise e, [EmbedQuery "regression";
                 QdrantSearch "machine-learning" Sample.query_vector 5])
    /\ (exc_type e = "TypeError" \/ exc_type e = "KeyError").
Proof.
  apply (retrieve_stops_at_hit_without_text SampleOffline.no_text_world "regression"
           Sample.query_vector SampleOffline.hits_without_text [] eq_refl eq_refl).
  intros (texts & H).
  apply Forall2_cons_inv_l in H as (t1 & texts1 & _ & H & _).
  apply Forall2_cons_inv_l in H as (t2 & texts2 & (m & Hm & Ht) & _ & _).
  injection Hm as <-. vm_compute in Ht. discriminate.
Defined.

(** X5.  If the backend answers but the response has no choice, or its
    first choice has no content, [generate_answer_with_mistral] raises
    IndexError, respectively AttributeError, after its single call to the
    backend; no answer is returned. *)
Theorem generate_answer_unusable_response (w : World)
        (query milvus_context neo4j_context : pyval)
        (model : option string) (temperature : option float) (max_tokens : option Z)
        (response : ChatResponse) (log : list Call) :
  chat_complete w
    (mkRequest (default Retrieval.DEFAULT_MODEL model)
               (Retrieval.build_messages query milvus_context neo4j_context)
               (default Retrieval.DEFAULT_TEMPERATURE temperature)
               (default Retrieval.DEFAULT_MAX_TOKENS max_tokens)) = Ok response ->
  (forall text more, choices response <> mkChoice (Some text) :: more) ->
  exists e,
    Retrieval.generate_answer_with_mistral w query milvus_context neo4j_context
      model temperature max_tokens log
    = (Raise e,
       log ++ [ChatComplete
                 (mkRequest (default Retrieval.DEFAULT_MODEL model)
                    (Retrieval.build_messages query milvus_context neo4j_context)
                    (default Retrieval.DEFAULT_TEMPERATURE temperature)
                    (default Retrieval.DEFAULT_MAX_TOKENS max_tokens))])
    /\ (choices response = [] -> exc_type e = "IndexError")
    /\ (choices response <> [] -> exc_type e = "AttributeError").
Proof.
  intros H Hno.
  unfold Retrieval.generate_answer_with_mistral, mbind, M_bind, remote, lift.
  rewrite H. unfold Retrieval.extract_answer.
  destruct (choices response) as [|[[text|]] more] eqn:E.
  - eexists. split; [reflexivity|]. split; [reflexivity | congruence].
  - exfalso. eapply Hno. reflexivity.
  - eexists. split; [reflexivity|]. split; [discriminate | reflexivity].
Qed.

Lemma generate_answer_unusable_response_witness :
  exists e,
    result_of (Retrieval.generate_answer_with_mistral SampleOffline.no_choice_world
                 (PyStr "regression") (PyStr "a") (PyList []) None None None [])
    = Raise e
    /\ exc_type e = "IndexError".
Proof.
  destruct (generate_answer_unusable_response SampleOffline.no_choice_world
              (PyStr "regression") (PyStr "a") (PyList []) None None None
              (mkResponse []) [] eq_refl ltac:(discriminate))
    as (e & H1 & H2 & _).
  exists e. split; [rewrite H1; reflexivity | apply H2; reflexivity].
Defined.

Lemma lower_char_idempotent c : Str.lower_char (Str.lower_char c) = Str.lower_char c.
Proof. destruct c as [[] [] [] [] [] [] [] []]; reflexivity. Qed.

Lemma lower_idempotent s : Str.lower (Str.lower s) = Str.lower s.
Proof.
  induction s as [|c s IH]; simpl; [reflexivity|].
  rewrite lower_char_idempotent, IH. reflexivity.
Qed.

(** X6.  The graph query does not see the case of the query: two queries
    that differ only in case (that lower-case to the same string) get the
    same rows from every graph, and so does a query and its lower-cased
    form. *)
Theorem graph_query_ignores_case (query query' : string) (nodes : list Node) :
  Str.lower query = Str.lower query' ->
  Cypher.match_chunks query nodes = Cypher.match_chunks query' nodes
  /\ Cypher.match_chunks (Str.lower query) nodes = Cypher.match_chunks query nodes.
Proof.
  intros H. unfold Cypher.match_chunks, Cypher.where_clause.
  rewrite lower_idempotent, H. split; reflexivity.
Qed.

Lemma graph_query_ignores_case_witness :
  Cypher.match_chunks "REGRESSION" Sample.nodes
  = Cypher.match_chunks "Regression" Sample.nodes.
Proof.
  exact (proj1 (graph_query_ignores_case "REGRESSION" "Regression" Sample.nodes eq_refl)).
Defined.

(* ===================================================================== *)
(** ** preprocess.py: finding the file, reading the pages                 *)
(* ===================================================================== *)

Lemma str_app_assoc (a b c : string) : ((a ++ b) ++ c = a ++ (b ++ c))%string.
Proof. induction a as [|x a IH]; [reflexivity|]. exact (f_equal (String x) IH). Qed.

Lemma str_app_nil_r (a : string) : (a ++ EmptyString)%string = a.
Proof. induction a as [|x a IH]; [reflexivity|]. exact (f_equal (String x) IH). Qed.

Lemma endswith_unfold suffix s :
  Preprocess.endswith suffix s
  = if String.eqb s suffix then true
    else match s with
         | EmptyString => false
         | String _ s' => Preprocess.endswith suffix s'
         end.
Proof. destruct s; reflexivity. Qed.

Lemma endswith_suffix suffix s :
  Preprocess.endswith suffix s = true <-> exists pre : string, s = (pre ++ suffix)%string.
Proof.
  split.
  - induction s as [|c s IH]; rewrite endswith_unfold;
      match goal with
      | |- context [String.eqb ?a suffix] =>
          destruct (String.eqb_spec a suffix) as [Heq|Hne]
      end.
    + exists EmptyString. exact Heq.
    + discriminate.
    + exists EmptyString. exact Heq.
    + intros H. destruct (IH H) as [pre ->]. exists (String c pre). reflexivity.
  - intros [pre ->]. induction pre as [|c pre IH]; rewrite endswith_unfold.
    + change (EmptyString ++ suffix)%string with suffix.
      rewrite String.eqb_refl. reflexivity.
    + change (String c pre ++ suffix)%string with (String c (pre ++ suffix)%string).
      destruct (String.eqb _ suffix); [reflexivity | exact IH].
Qed.

Lemma is_pdf_name_endswith name :
  is_pdf_name name <-> Preprocess.endswith ".pdf" name = true.
Proof. symmetry. apply endswith_suffix. Qed.

Lemma find_first {A} (f : A -> bool) (l : list A) (x : A) :
  List.find f l = Some x
  <-> exists before after,
        l = before ++ x :: after /\ f x = true /\ Forall (fun y => f y = false) before.
Proof.
  split.
  - induction l as [|y l IH]; simpl; [discriminate|].
    destruct (f y) eqn:E.
    + intros [= ->]. exists [], l. repeat split; [exact E | constructor].
    + intros H. destruct (IH H) as (before & after & -> & Hx & Hb).
      exists (y :: before), after. repeat split; [exact Hx | constructor; assumption].
  - intros (before & after & -> & Hx & Hb).
    induction Hb as [|y before Hy _ IH]; simpl; [rewrite Hx | rewrite Hy]; auto.
Qed.

Lemma find_none_all {A} (f : A -> bool) (l : list A) :
  List.find f l = None <-> Forall (fun y => f y = false) l.
Proof.
  induction l as [|y l IH]; simpl; [split; [constructor | reflexivity]|].
  destruct (f y) eqn:E; split.
  - discriminate.
  - intros H. apply Forall_cons in H as [H _]. congruence.
  - intros H. constructor; [exact E | apply IH, H].
  - intros H. apply Forall_cons in H as [_ H]. apply IH, H.
Qed.

(** X7.  When the directory can be listed, [gather_data] returns the first
    name of the listing that ends with ".pdf" (case-sensitive), and None
    exactly when no name of the listing does. *)
Theorem gather_data_first_pdf (listdir : string -> Result (list string))
        (files : list string) :
  listdir Preprocess.PDF_DIR = Ok files ->
  (forall name,
      Preprocess.gather_data listdir = Ok (Some name)
      <-> exists before after,
            files = before ++ name :: after /\ is_pdf_name name
            /\ Forall (fun other => ~ is_pdf_name other) before)
  /\ (Preprocess.gather_data listdir = Ok None
      <-> Forall (fun other => ~ is_pdf_name other) files).
Proof.
  intros H. unfold Preprocess.gather_data, mbind, Result_bind, mret, Result_ret.
  rewrite H.
  assert (forall l, Forall (fun other => ~ is_pdf_name other) l
                    <-> Forall (fun y => Preprocess.endswith ".pdf" y = false) l) as Hall.
  { intros l. apply Forall_iff. intros y. rewrite is_pdf_name_endswith.
    destruct (Preprocess.endswith ".pdf" y); split; congruence. }
  split.
  - intros name. split.
    + intros [= Hf]. apply find_first in Hf as (before & after & -> & Hx & Hb).
      exists before, after. rewrite is_pdf_name_endswith, Hall. auto.
    + intros (before & after & -> & Hx & Hb). do 2 f_equal.
      apply find_first. exists before, after.
      rewrite is_pdf_name_endswith, Hall in *. auto.
  - rewrite Hall, <- find_none_all. split; [intros [= ->] | intros ->]; reflexivity.
Qed.

Lemma gather_data_first_pdf_witness :
  Preprocess.gather_data (fun _ => Ok ["notes.txt"; "SCAN.PDF"; "ml.pdf"; "ds.pdf"])
  = Ok (Some "ml.pdf").
Proof.
  apply (proj1 (gather_data_first_pdf
                  (fun _ => Ok ["notes.txt"; "SCAN.PDF"; "ml.pdf"; "ds.pdf"])
                  ["notes.txt"; "SCAN.PDF"; "ml.pdf"; "ds.pdf"] eq_refl)).
  exists ["notes.txt"; "SCAN.PDF"], ["ds.pdf"].
  split; [reflexivity|]. split; [exists "ml"; reflexivity|].
  repeat constructor; intros H%is_pdf_name_endswith; discriminate.
Defined.

Lemma extract_pages_ok (texts : list string) (text : string) :
  Preprocess.extract_pages (map Ok texts) text = Ok (text ++ pages_text texts)%string.
Proof.
  revert text. induction texts as [|t texts IH]; intros text; simpl.
  - rewrite str_app_nil_r. reflexivity.
  - destruct t as [|c t]; [apply IH|].
    rewrite IH, !str_app_assoc. reflexivity.
Qed.

Lemma extract_pages_raise (texts : list string) (e : PyExc) rest (text : string) :
  Preprocess.extract_pages (map Ok texts ++ Raise e :: rest) text = Raise e.
Proof.
  revert text. induction texts as [|t texts IH]; intros text; simpl; [reflexivity|].
  apply IH.
Qed.

(** X8.  When the file opens and every page gives its text,
    [preprocess_data] returns the texts of the non-empty pages in page
    order, each followed by two newlines; empty pages leave no trace. *)
Theorem preprocess_data_joins_pages (read_pdf : string -> Result (list (Result string)))
        (path : string) (texts : list string) :
  read_pdf path = Ok (map Ok texts) ->
  Preprocess.preprocess_data read_pdf (Some path) = Ok (pages_text texts).
Proof.
  intros H. unfold Preprocess.preprocess_data, try_except, mbind, Result_bind.
  rewrite H, extract_pages_ok. reflexivity.
Qed.

Lemma preprocess_data_joins_pages_witness :
  Preprocess.preprocess_data (fun _ => Ok [Ok "page one"; Ok EmptyString; Ok "page three"])
                             (Some "ml.pdf")
  = Ok ("page one" ++ Str.NL ++ Str.NL ++ "page three" ++ Str.NL ++ Str.NL)%string.
Proof.
  exact (preprocess_data_joins_pages
           (fun _ => Ok [Ok "page one"; Ok EmptyString; Ok "page three"])
           "ml.pdf" ["page one"; EmptyString; "page three"] eq_refl).
Defined.

(** X9.  When the extraction of one page raises an ordinary exception,
    [preprocess_data] returns the empty string: the text already read from
    the earlier pages is dropped, and nothing is raised. *)
Theorem preprocess_data_drops_text_on_page_failure
        (read_pdf : string -> Result (list (Result string))) (path : string)
        (texts : list string) (e : PyExc) (later : list (Result string)) :
  read_pdf path = Ok (map Ok texts ++ Raise e :: later) ->
  caught_by_except_Exception e = true ->
  Preprocess.preprocess_data read_pdf (Some path) = Ok EmptyString.
Proof.
  intros H He. unfold Preprocess.preprocess_data, try_except, mbind, Result_bind.
  rewrite H, extract_pages_raise, He. reflexivity.
Qed.

Lemma preprocess_data_drops_text_on_page_failure_witness :
  Preprocess.preprocess_data
    (fun _ => Ok [Ok "page one"; Raise (mkExc "PdfReadError" "broken stream"); Ok "page three"])
    (Some "ml.pdf")
  = Ok EmptyString.
Proof.
  exact (preprocess_data_drops_text_on_page_failure
           (fun _ => Ok [Ok "page one"; Raise (mkExc "PdfReadError" "broken stream");
                         Ok "page three"])
           "ml.pdf" ["page one"] (mkExc "PdfReadError" "broken stream") [Ok "page three"]
           eq_refl eq_refl).
Defined.

(** X10.  [preprocess_data] never lets an exception that [except Exception]
    catches escape: a missing path (None), a file that cannot be opened or
    parsed, or a page that fails, all end in a returned str; only
    exceptions outside Exception (such as KeyboardInterrupt) propagate. *)
Theorem preprocess_data_raises_only_outside_Exception
        (read_pdf : string -> Result (list (Result string)))
        (file_path : option string) (e : PyExc) :
  Preprocess.preprocess_data read_pdf file_path = Raise e ->
  caught_by_except_Exception e = false
  /\ exists path, file_path = Some path.
Proof.
  unfold Preprocess.preprocess_data, try_except.
  destruct file_path as [path|]; [|simpl; discriminate].
  destruct (_ ≫= _) as [text|e'] eqn:E; [discriminate|].
  destruct (caught_by_except_Exception e') eqn:He; [discriminate|].
  intros [= <-]. split; [exact He | eauto].
Qed.

Lemma preprocess_data_raises_only_outside_Exception_witness :
  caught_by_except_Exception (mkExc "KeyboardInterrupt" EmptyString) = false
  /\ exists path, Some "ml.pdf" = Some path.
Proof.
  exact (preprocess_data_raises_only_outside_Exception
           (fun _ => Raise (mkExc "KeyboardInterrupt" EmptyString))
           (Some "ml.pdf") (mkExc "KeyboardInterrupt" EmptyString) eq_refl).
Defined.

(* ===================================================================== *)
(** ** preprocess.py: the concepts read off a response                    *)
(* ===================================================================== *)

Lemma has_char_app c (a b : string) :
  Str.has_char c (a ++ b)%string = Str.has_char c a || Str.has_char c b.
Proof.
  induction a as [|x a IH]; [reflexivity|].
  change (Str.has_char c (String x (a ++ b)%string)
          = Str.has_char c (String x a) || Str.has_char c b).
  simpl. destruct (ascii_dec c x); [reflexivity | exact IH].
Qed.

Lemma trimmed_no_char c s out :
  trimmed_of s out -> Str.has_char c s = false -> Str.has_char c out = false.
Proof.
  intros ((l & r & -> & _) & _). rewrite !has_char_app.
  intros H. apply orb_false_iff in H as [_ H]. apply orb_false_iff in H as [H _].
  exact H.
Qed.

Lemma strip_markers_no_char c line :
  Str.has_char c line = false -> Str.has_char c (Preprocess.strip_markers line) = false.
Proof.
  induction line as [|x line IH]; simpl; [reflexivity|].
  destruct (Preprocess.is_marker x); [|simpl; tauto].
  destruct (ascii_dec c x); [discriminate | exact IH].
Qed.

Lemma strip_markers_first line ch :
  Str.first_char (Preprocess.strip_markers line) = Some ch ->
  Preprocess.is_marker ch = false.
Proof.
  induction line as [|x line IH]; simpl; [discriminate|].
  destruct (Preprocess.is_marker x) eqn:E; [exact IH|].
  simpl. intros [= <-]. exact E.
Qed.

Lemma lstrip_id s :
  (forall ch, Str.first_char s = Some ch -> Str.isspace ch = false) -> Str.lstrip s = s.
Proof.
  destruct s as [|c s]; simpl; [reflexivity|].
  intros H. rewrite (H c eq_refl). reflexivity.
Qed.

Lemma is_marker_false ch :
  Preprocess.is_marker ch = false ->
  Str.isspace ch = false /\ ch <> Preprocess.DASH /\ ch <> Preprocess.STAR.
Proof.
  unfold Preprocess.is_marker. intros H.
  repeat (apply orb_false_iff in H as [H ?]).
  repeat split; [assumption | |];
    intros ->; rewrite bool_decide_eq_true_2 in * by reflexivity; discriminate.
Qed.

Lemma has_char_cons_ne c x s :
  c <> x -> Str.has_char c (String x s) = Str.has_char c s.
Proof. intros H. simpl. destruct (ascii_dec c x); [contradiction | reflexivity]. Qed.

Lemma split_lines_cons c s :
  Preprocess.split_lines (String c s)
  = if ascii_dec c Preprocess.NEWLINE then EmptyString :: Preprocess.split_lines s
    else match Preprocess.split_lines s with
         | first :: others => String c first :: others
         | [] => [String c EmptyString]
         end.
Proof. reflexivity. Qed.

Lemma split_lines_no_newline s :
  Forall (fun line => Str.has_char Preprocess.NEWLINE line = false)
         (Preprocess.split_lines s).
Proof.
  induction s as [|c s IH]; [repeat constructor|].
  rewrite split_lines_cons.
  destruct (ascii_dec c Preprocess.NEWLINE) as [->|Hne];
    [constructor; [reflexivity | exact IH]|].
  assert (Preprocess.NEWLINE <> c) as Hne' by congruence.
  destruct (Preprocess.split_lines s) as [|first others].
  - constructor; [|constructor]. rewrite has_char_cons_ne by exact Hne'. reflexivity.
  - apply Forall_cons in IH as [Hf Ho]. constructor; [|exact Ho].
    rewrite has_char_cons_ne by exact Hne'. exact Hf.
Qed.

Lemma nonempty_ne s : Preprocess.nonempty s = true -> s <> EmptyString.
Proof. destruct s; [discriminate | discriminate]. Qed.

Lemma startswith_char_false c line ch :
  Preprocess.startswith_char c line = false -> Str.first_char line = Some ch -> ch <> c.
Proof.
  destruct line as [|d line]; simpl; [discriminate|].
  intros H [= <-] ->. rewrite bool_decide_eq_true_2 in H by reflexivity. discriminate.
Qed.

Lemma clean_line_keeps_clean concepts raw :
  Forall clean_concept concepts ->
  Str.has_char Preprocess.NEWLINE raw = false ->
  Forall clean_concept (Preprocess.clean_line concepts raw).
Proof.
  intros Hacc Hnl. unfold Preprocess.clean_line.
  pose proof (strip_trimmed raw) as Hline.
  pose proof (trimmed_no_char _ _ _ Hline Hnl) as Hline_nl.
  destruct Hline as (_ & Hfirst & Hlast).
  set (line := Str.strip raw) in *.
  destruct (Preprocess.nonempty line) eqn:Hne; simpl; [|exact Hacc].
  destruct (Preprocess.startswith_char Preprocess.DASH line
            || Preprocess.startswith_char Preprocess.STAR line
            || Preprocess.is_numbered line) eqn:Hbullet.
  - set (item := Preprocess.strip_markers line).
    destruct (Preprocess.nonempty (Str.strip item)) eqn:Hc; [|exact Hacc].
    apply Forall_app. split; [exact Hacc|]. constructor; [|constructor].
    pose proof (strip_trimmed item) as Hitem.
    split; [apply nonempty_ne, Hc|]. split; [|split].
    + intros ch Hch. apply is_marker_false, (strip_markers_first line).
      fold item. apply rstrip_first_inv in Hch.
      rewrite lstrip_id in Hch; [exact Hch|].
      intros ch' Hch'. apply (strip_markers_first line), is_marker_false in Hch'.
      apply Hch'.
    + apply Hitem.
    + apply (trimmed_no_char _ item); [exact Hitem|].
      apply strip_markers_no_char, Hline_nl.
  - destruct (negb (Preprocess.startswith_char Preprocess.HASH line)
              && negb (Preprocess.is_heading line)); [|exact Hacc].
    apply Forall_app. split; [exact Hacc|]. constructor; [|constructor].
    apply orb_false_iff in Hbullet as [Hbullet _].
    apply orb_false_iff in Hbullet as [Hdash Hstar].
    split; [apply nonempty_ne, Hne|]. split; [|split].
    + intros ch Hch. split; [apply Hfirst, Hch|].
      split; eapply startswith_char_false; eassumption.
    + exact Hlast.
    + exact Hline_nl.
Qed.

(** X11.  Every concept that the cleaning of a response keeps is clean: it
    is not empty, has no white space at either end, does not begin with
    "-" or "*", and lies on one line, whatever the text of the response. *)
Theorem clean_concepts_are_clean (concepts_text : string) :
  Forall clean_concept (Preprocess.clean_concepts concepts_text).
Proof.
  unfold Preprocess.clean_concepts.
  assert (forall lines acc,
             Forall (fun line => Str.has_char Preprocess.NEWLINE line = false) lines ->
             Forall clean_concept acc ->
             Forall clean_concept (foldl Preprocess.clean_line acc lines)) as H.
  { induction lines as [|raw lines IH]; intros acc Hl Hacc; simpl; [exact Hacc|].
    apply Forall_cons in Hl as [Hraw Hl].
    apply IH; [exact Hl | apply clean_line_keeps_clean; assumption]. }
  apply H; [apply split_lines_no_newline | constructor].
Qed.

Lemma process_chapter_entry generate i ch :
  (forall k p e, generate k p = Raise e -> caught_by_except_Exception e = true) ->
  Preprocess.process_chapter generate i ch = Ok (entry_for generate i ch).
Proof.
  intros Hc. unfold Preprocess.process_chapter, entry_for, try_except, mbind, Result_bind.
  destruct (generate i (Preprocess.prompt ch)) as [t|e] eqn:E; [reflexivity|].
  rewrite (Hc _ _ _ E). reflexivity.
Qed.

Lemma process_chapters_entries generate chapters i results :
  (forall k p e, generate k p = Raise e -> caught_by_except_Exception e = true) ->
  Preprocess.process_chapters generate i chapters results
  = Ok (results ++ imap (fun k => entry_for generate (i + k)) chapters).
Proof.
  intros Hc. revert i results.
  induction chapters as [|ch chapters IH]; intros i results; simpl.
  - rewrite app_nil_r. reflexivity.
  - unfold mbind, Result_bind. rewrite process_chapter_entry by exact Hc.
    rewrite IH, <- app_assoc, Nat.add_0_r. simpl. do 3 f_equal.
    apply imap_ext. intros k x _. simpl. rewrite Nat.add_succ_r. reflexivity.
Qed.

(** X12.  When no request fails with an exception outside Exception,
    [extract_entities_relationships] returns one entry per chapter, in
    chapter order: for a chapter whose request succeeded the dict with the
    cleaned concepts, for a chapter whose request raised the note string.
    A failed chapter neither stops the loop nor is left out. *)
Theorem extract_one_entry_per_chapter (generate : nat -> string -> Result string)
        (identify_chapters : string -> list Preprocess.Chapter) (text : string) :
  (forall i p e, generate i p = Raise e -> caught_by_except_Exception e = true) ->
  Preprocess.extract_entities_relationships generate identify_chapters text
  = Ok (imap (entry_for generate) (identify_chapters text))
  /\ length (imap (entry_for generate) (identify_chapters text))
     = length (identify_chapters text).
Proof.
  intros Hc. split; [|apply length_imap].
  unfold Preprocess.extract_entities_relationships.
  rewrite process_chapters_entries by exact Hc. reflexivity.
Qed.

Lemma sample_generate_raises_ordinary i p e :
  SampleOffline.generate i p = Raise e -> caught_by_except_Exception e = true.
Proof. destruct i; simpl; [discriminate|]. intros [= <-]. reflexivity. Qed.

Lemma extract_one_entry_per_chapter_witness :
  Preprocess.extract_entities_relationships SampleOffline.generate
    SampleOffline.identify_chapters "any text"
  = Ok SampleOffline.results.
Proof.
  exact (proj1 (extract_one_entry_per_chapter SampleOffline.generate
                  SampleOffline.identify_chapters "any text"
                  sample_generate_raises_ordinary)).
Defined.

(* ===================================================================== *)
(** ** knowledge_base.py                                                  *)
(* ===================================================================== *)

Lemma lookup_var_none concept vars :
  KnowledgeBase.lookup_var concept vars = None <-> concept ∉ map fst vars.
Proof.
  induction vars as [|[k v] vars IH]; simpl.
  - split; [intros _ H; inversion H | reflexivity].
  - rewrite not_elem_of_cons.
    destruct (String.eqb_spec k concept) as [->|Hne]; split.
    + discriminate.
    + intros [H _]. contradiction.
    + intros H. split; [congruence | apply IH, H].
    + intros [_ H]. apply IH, H.
Qed.

Lemma lookup_var_some concept vars :
  concept ∈ map fst vars -> exists v, KnowledgeBase.lookup_var concept vars = Some v.
Proof.
  intros H. destruct (KnowledgeBase.lookup_var concept vars) eqn:E; [eauto|].
  apply lookup_var_none in E. contradiction.
Qed.

Lemma register_spec state concept :
  kb_invariant state ->
  kb_invariant (KnowledgeBase.register state concept)
  /\ (forall c, c ∈ kb_keys (KnowledgeBase.register state concept)
                <-> c ∈ kb_keys state \/ c = remove_quotes concept).
Proof.
  intros (Hnd & Hv & Hn). unfold KnowledgeBase.register.
  destruct (KnowledgeBase.lookup_var (remove_quotes concept) (fst state)) as [v|] eqn:E.
  - split; [repeat split; assumption|].
    intros c. split; [auto|]. intros [H| ->]; [exact H|].
    destruct (decide (remove_quotes concept ∈ kb_keys state)) as [H|H]; [exact H|].
    apply lookup_var_none in H. congruence.
  - apply lookup_var_none in E. unfold kb_invariant, kb_keys in *. simpl.
    rewrite !map_app, length_app, Nat.add_1_r, seq_S, map_app. simpl.
    split; [split; [|split]|].
    + apply NoDup_app. split; [exact Hnd|]. split; [|apply NoDup_singleton].
      intros x Hx Hx'. apply list_elem_of_singleton in Hx'. subst x. contradiction.
    + rewrite Hv, Hn. reflexivity.
    + rewrite Hn. reflexivity.
    + intros c. rewrite elem_of_app, list_elem_of_singleton. reflexivity.
Qed.

Lemma foldl_register_spec concepts state :
  kb_invariant state ->
  kb_invariant (foldl KnowledgeBase.register state concepts)
  /\ (forall c, c ∈ kb_keys (foldl KnowledgeBase.register state concepts)
                <-> c ∈ kb_keys state \/ exists concept, concept ∈ concepts
                                                        /\ c = remove_quotes concept).
Proof.
  revert state. induction concepts as [|x concepts IH]; intros state Hinv; simpl.
  - split; [exact Hinv|]. intros c. split; [auto|].
    intros [H|(concept & H & _)]; [exact H | inversion H].
  - destruct (register_spec state x Hinv) as (Hinv' & Hk).
    destruct (IH _ Hinv') as (Hinv'' & Hk'). split; [exact Hinv''|].
    intros c. rewrite Hk', Hk. split.
    + intros [[H| ->]|(concept & H & ->)]; [auto | |]; right; eexists;
        (split; [|reflexivity]); [left | right; exact H].
    + intros [H|(concept & H & ->)]; [auto|].
      apply elem_of_cons in H as [->|H]; [auto | right; eauto].
Qed.

Lemma first_pass_chapters chapters state :
  KnowledgeBase.first_pass (map EntryChapter chapters) state
  = Ok (foldl KnowledgeBase.register state (listed_concepts chapters)).
Proof.
  revert state. induction chapters as [|c chapters IH]; intros state; [reflexivity|].
  simpl. unfold mbind, Result_bind. rewrite IH. unfold listed_concepts. simpl.
  rewrite foldl_app. reflexivity.
Qed.

Lemma first_pass_note data note state :
  EntryNote note ∈ data ->
  KnowledgeBase.first_pass data state
  = Raise (AttributeError "'str' object has no attribute 'get'").
Proof.
  intros H. revert state. induction data as [|item data IH]; intros state;
    [inversion H|].
  simpl. unfold mbind, Result_bind.
  apply elem_of_cons in H as [<-|H]; [reflexivity|].
  destruct item; simpl; [apply IH, H | reflexivity].
Qed.

Lemma has_char_cons_eq c s : Str.has_char c (String c s) = true.
Proof. simpl. destruct (ascii_dec c c); [reflexivity | contradiction]. Qed.

Lemma remove_quotes_cons c s :
  remove_quotes (String c s)
  = if ascii_dec c Str.SQUOTE then remove_quotes s else String c (remove_quotes s).
Proof. reflexivity. Qed.

Lemma remove_quotes_id s :
  Str.has_char Str.SQUOTE s = false -> remove_quotes s = s.
Proof.
  induction s as [|c s IH]; [reflexivity|].
  rewrite remove_quotes_cons. intros H.
  destruct (ascii_dec c Str.SQUOTE) as [->|Hne].
  - rewrite has_char_cons_eq in H. discriminate.
  - rewrite has_char_cons_ne in H by congruence. rewrite IH by exact H. reflexivity.
Qed.

Lemma remove_quotes_no_quote s : Str.has_char Str.SQUOTE (remove_quotes s) = false.
Proof.
  induction s as [|c s IH]; simpl; [reflexivity|].
  destruct (ascii_dec c Str.SQUOTE) as [->|Hne]; [exact IH|].
  rewrite has_char_cons_ne by congruence. exact IH.
Qed.

#[local] Instance concept_var_inj : Inj (=) (=) concept_var.
Proof.
  intros a b H. unfold concept_var in H.
  apply (inj (String.app "cpt")) in H. apply (inj pretty) in H. exact H.
Qed.

Lemma first_pass_vars (chapters : list ChapterEntry) :
  exists concept_vars,
    KnowledgeBase.first_pass (map EntryChapter chapters) ([], 1%nat)
    = Ok (concept_vars, S (length concept_vars))
    /\ NoDup (map fst concept_vars)
    /\ map snd concept_vars = map concept_var (seq 1 (length concept_vars))
    /\ forall name, name ∈ map fst concept_vars
                    <-> exists concept, concept ∈ listed_concepts chapters
                                        /\ name = remove_quotes concept.
Proof.
  rewrite first_pass_chapters.
  assert (kb_invariant ([], 1%nat)) as H0.
  { repeat split. constructor. }
  destruct (foldl_register_spec (listed_concepts chapters) _ H0) as ((Hnd & Hv & Hn) & Hk).
  destruct (foldl KnowledgeBase.register _ _) as [vars n]. simpl in *.
  unfold kb_keys in *. simpl in *. subst n.
  exists vars. split; [reflexivity|]. split; [exact Hnd|]. split; [exact Hv|].
  intros name. rewrite Hk. split; [|auto]. intros [H|H]; [inversion H | exact H].
Qed.

Lemma filter_filter_bool {A} (f g : A -> bool) (l : list A) :
  List.filter f (List.filter g l) = List.filter (fun y => g y && f y) l.
Proof.
  induction l as [|x l IH]; simpl; [reflexivity|].
  destruct (g x); simpl; [destruct (f x); rewrite IH; reflexivity | exact IH].
Qed.

Lemma filter_all {A} (f : A -> bool) (l : list A) :
  (forall x, f x = true) -> List.filter f l = l.
Proof.
  intros H. induction l as [|x l IH]; simpl; [reflexivity|]. rewrite H, IH. reflexivity.
Qed.

Lemma register_keys state concept :
  kb_keys (KnowledgeBase.register state concept)
  = if bool_decide (remove_quotes concept ∈ kb_keys state) then kb_keys state
    else kb_keys state ++ [remove_quotes concept].
Proof.
  unfold KnowledgeBase.register, kb_keys.
  destruct (KnowledgeBase.lookup_var (remove_quotes concept) (fst state)) eqn:E.
  - rewrite bool_decide_eq_true_2; [reflexivity|].
    destruct (decide (remove_quotes concept ∈ map fst (fst state))) as [H|H]; [exact H|].
    apply lookup_var_none in H. congruence.
  - apply lookup_var_none in E. rewrite bool_decide_eq_false_2 by exact E.
    simpl. rewrite map_app. reflexivity.
Qed.

Lemma foldl_register_keys concepts state :
  kb_keys (foldl KnowledgeBase.register state concepts)
  = kb_keys state
    ++ List.filter (fun y => negb (bool_decide (y ∈ kb_keys state)))
                   (first_occurrences (map remove_quotes concepts)).
Proof.
  revert state. induction concepts as [|x concepts IH]; intros state; simpl.
  - rewrite app_nil_r. reflexivity.
  - rewrite IH, register_keys, filter_filter_bool.
    destruct (bool_decide (remove_quotes x ∈ kb_keys state)) eqn:E; simpl.
    + f_equal. apply List.filter_ext. intros y.
      destruct (String.eqb_spec y (remove_quotes x)) as [->|Hne]; simpl;
        [rewrite E|]; reflexivity.
    + rewrite <- app_assoc. simpl. do 2 f_equal. apply List.filter_ext. intros y.
      destruct (String.eqb_spec y (remove_quotes x)) as [->|Hne]; simpl.
      * rewrite bool_decide_eq_true_2; [reflexivity|].
        apply elem_of_app. right. left.
      * destruct (bool_decide (y ∈ kb_keys state)) eqn:Ey.
        -- apply bool_decide_eq_true in Ey.
           rewrite bool_decide_eq_true_2; [reflexivity|]. apply elem_of_app. auto.
        -- apply bool_decide_eq_false in Ey.
           rewrite bool_decide_eq_false_2; [reflexivity|].
           rewrite elem_of_app, list_elem_of_singleton. tauto.
Qed.

Lemma first_pass_names (chapters : list ChapterEntry) concept_vars counter :
  KnowledgeBase.first_pass (map EntryChapter chapters) ([], 1%nat)
  = Ok (concept_vars, counter) ->
  map fst concept_vars = concept_names chapters.
Proof.
  rewrite first_pass_chapters. intros [= H].
  pose proof (foldl_register_keys (listed_concepts chapters) ([], 1%nat)) as Hk.
  rewrite H in Hk. unfold kb_keys in Hk. cbn [fst] in Hk. rewrite Hk.
  cbn [map app]. apply filter_all. intros y.
  apply negb_true_iff, bool_decide_eq_false_2. intros Hy. inversion Hy.
Qed.

(** X13.  The first pass of [create_cypher_queries] over chapter dicts
    gives every distinct concept name (single quotes removed) exactly one
    variable: the names are the listed concepts without their quotes, each
    once, in the order they are first met; they are pairwise distinct and
    contain no single quote; the variable of the k-th name is cptk, so the
    variables are cpt1, cpt2, ..., cptN and pairwise distinct; and the
    counter ends at N+1. *)
Theorem first_pass_numbers_the_concepts (chapters : list ChapterEntry) :
  exists concept_vars,
    KnowledgeBase.first_pass (map EntryChapter chapters) ([], 1%nat)
    = Ok (concept_vars, S (length concept_vars))
    /\ NoDup (map fst concept_vars)
    /\ map snd concept_vars = map concept_var (seq 1 (length concept_vars))
    /\ NoDup (map snd concept_vars)
    /\ Forall (fun name => Str.has_char Str.SQUOTE name = false) (map fst concept_vars)
    /\ (forall name, name ∈ map fst concept_vars
                     <-> exists concept, concept ∈ listed_concepts chapters
                                         /\ name = remove_quotes concept)
    /\ map fst concept_vars = concept_names chapters
    /\ concept_vars
       = zip (concept_names chapters)
             (map concept_var (seq 1 (length (concept_names chapters)))).
Proof.
  destruct (first_pass_vars chapters) as (vars & Hfp & Hnd & Hv & Hk).
  pose proof (first_pass_names _ _ _ Hfp) as Hnames.
  exists vars. split; [exact Hfp|]. split; [exact Hnd|]. split; [exact Hv|].
  split; [|split; [|split; [exact Hk|split; [exact Hnames|]]]].
  - rewrite Hv. apply (NoDup_fmap_2 concept_var), NoDup_seq.
  - apply Forall_forall. intros name Hname. apply Hk in Hname as (concept & _ & ->).
    apply remove_quotes_no_quote.
  - rewrite <- Hnames, length_map, <- Hv. symmetry. apply zip_fst_snd.
Qed.

Lemma first_pass_numbers_the_concepts_witness :
  KnowledgeBase.first_pass (map EntryChapter SampleOffline.chapter_entries) ([], 1%nat)
  = Ok ([("Bayes theorem", "cpt1"); ("SVM", "cpt2"); ("k-means (Lloyd)", "cpt3")], 4%nat).
Proof.
  destruct (first_pass_numbers_the_concepts SampleOffline.chapter_entries)
    as (vars & Hfp & _ & _ & _ & _ & _ & _ & Hzip).
  rewrite Hfp, Hzip. vm_compute. reflexivity.
Defined.

Lemma chapter_nodes_lines chapters n queries :
  KnowledgeBase.chapter_nodes (S n) (map EntryChapter chapters) queries
  = Ok (queries ++ imap (fun i => chapter_line (n + i)) chapters).
Proof.
  revert n queries. induction chapters as [|c chapters IH]; intros n queries.
  - simpl. rewrite app_nil_r. reflexivity.
  - cbn [map KnowledgeBase.chapter_nodes]. unfold mbind, Result_bind.
    change (KnowledgeBase.chapter_query (S n) (EntryChapter c)) with (Ok (chapter_line n c)).
    cbv beta iota.
    rewrite IH, <- app_assoc, imap_cons, Nat.add_0_r. simpl. do 3 f_equal.
    apply imap_ext. intros i x _. simpl. rewrite Nat.add_succ_r. reflexivity.
Qed.

Lemma concept_query_lines vars m :
  map snd vars = map concept_var (seq (S m) (length vars)) ->
  Forall (fun name => Str.has_char Str.SQUOTE name = false) (map fst vars) ->
  map KnowledgeBase.concept_query vars
  = imap (fun k => concept_line (m + k)) (map fst vars).
Proof.
  revert m. induction vars as [|[name var] vars IH]; intros m Hv Hq; [reflexivity|].
  cbn [map length seq fst snd] in *. injection Hv as -> Hv.
  apply Forall_cons in Hq as [Hname Hq].
  rewrite imap_cons, Nat.add_0_r, (IH (S m) Hv Hq). f_equal.
  - unfold KnowledgeBase.concept_query, concept_line. cbn [fst snd].
    rewrite (remove_quotes_id _ Hname). reflexivity.
  - apply imap_ext. intros i x _. simpl. rewrite Nat.add_succ_r. reflexivity.
Qed.

Lemma lookup_var_position vars m name :
  map snd vars = map concept_var (seq (S m) (length vars)) ->
  name ∈ map fst vars ->
  KnowledgeBase.lookup_var name vars
  = Some (concept_var (S (m + position name (map fst vars)))).
Proof.
  revert m. induction vars as [|[k var] vars IH]; intros m Hv Hin; [inversion Hin|].
  cbn [map length seq fst snd KnowledgeBase.lookup_var position] in *.
  injection Hv as -> Hv.
  destruct (String.eqb_spec k name) as [->|Hne].
  - rewrite Nat.add_0_r. reflexivity.
  - apply elem_of_cons in Hin as [->|Hin]; [contradiction|].
    rewrite (IH (S m) Hv Hin), Nat.add_succ_r. reflexivity.
Qed.

Lemma chapter_relationships_lines vars i concepts queries :
  map snd vars = map concept_var (seq 1 (length vars)) ->
  (forall concept, concept ∈ concepts -> remove_quotes concept ∈ map fst vars) ->
  KnowledgeBase.chapter_relationships vars (S i) concepts queries
  = Ok (queries ++ map (relationship_line (map fst vars) i) concepts).
Proof.
  intros Hv. revert queries. induction concepts as [|x concepts IH]; intros queries Hk.
  - simpl. rewrite app_nil_r. reflexivity.
  - cbn [KnowledgeBase.chapter_relationships map].
    rewrite (lookup_var_position vars 0 _ Hv) by (apply Hk; left).
    cbv beta iota.
    rewrite IH by (intros concept H; apply Hk; right; exact H).
    rewrite <- app_assoc. reflexivity.
Qed.

Lemma relationships_lines vars chapters n queries :
  map snd vars = map concept_var (seq 1 (length vars)) ->
  (forall concept, concept ∈ listed_concepts chapters ->
                   remove_quotes concept ∈ map fst vars) ->
  KnowledgeBase.relationships vars (S n) (map EntryChapter chapters) queries
  = Ok (queries
          ++ concat (imap (fun i c => map (relationship_line (map fst vars) (n + i))
                                          (default [] (entry_concepts c)))
                          chapters)).
Proof.
  intros Hv. revert n queries.
  induction chapters as [|c chapters IH]; intros n queries Hk.
  - simpl. rewrite app_nil_r. reflexivity.
  - cbn [map KnowledgeBase.relationships]. unfold mbind, Result_bind.
    cbn [KnowledgeBase.get_concepts]. unfold listed_concepts in Hk. cbn [map concat] in Hk.
    rewrite (chapter_relationships_lines vars n _ _ Hv)
      by (intros concept H; apply Hk, elem_of_app; left; exact H).
    cbv beta iota.
    rewrite IH by (intros concept H; apply Hk, elem_of_app; right; exact H).
    rewrite <- app_assoc, imap_cons, Nat.add_0_r. cbn [concat]. do 4 f_equal.
    apply imap_ext. intros i x _. simpl. rewrite Nat.add_succ_r. reflexivity.
Qed.

Lemma length_concat_imap {A B C} (f : nat -> B -> C) (g : A -> list B) (l : list A) :
  length (concat (imap (fun i x => map (f i) (g x)) l)) = length (concat (map g l)).
Proof.
  revert f. induction l as [|x l IH]; intros f; [reflexivity|].
  rewrite imap_cons. cbn [map concat]. rewrite !length_app, length_map.
  f_equal. apply (IH (fun i => f (S i))).
Qed.

(** X14.  On data whose items are all chapter dicts,
    [create_cypher_queries] does not raise (the variable of every concept
    of every chapter is found) and returns, one line feed between each two
    lines: first one CREATE line per chapter, node c1, c2, ... in data order
    with its title and number (untitled and the place when the key is
    absent); then one CREATE line per concept name, node cpt1, cpt2, ... in
    the order the names are first met; then, chapter by chapter, one line
    per concept the chapter lists (repetitions included) that relates the
    chapter's node to the node of that concept's name. *)
Theorem create_cypher_queries_lines (chapters : list ChapterEntry) :
  exists text,
    KnowledgeBase.create_cypher_queries (map EntryChapter chapters) = Ok text
    /\ newline_joined (expected_lines chapters) text
    /\ length (expected_lines chapters)
       = (length chapters + length (concept_names chapters)
          + length (listed_concepts chapters))%nat
    /\ length (concept_names chapters)
       = length (remove_dups (map remove_quotes (listed_concepts chapters))).
Proof.
  destruct (first_pass_vars chapters) as (vars & Hfp & Hnd & Hv & Hk).
  pose proof (first_pass_names _ _ _ Hfp) as Hnames.
  assert (Forall (fun name => Str.has_char Str.SQUOTE name = false) (map fst vars)) as Hq.
  { apply Forall_forall. intros name Hname. apply Hk in Hname as (concept & _ & ->).
    apply remove_quotes_no_quote. }
  exists (Str.join Str.NL (expected_lines chapters)).
  split; [|split; [apply join_newline_joined|split]].
  - unfold KnowledgeBase.create_cypher_queries, KnowledgeBase.build_queries,
      mbind, Result_bind, mret, Result_ret.
    rewrite Hfp. cbn [fst].
    rewrite (chapter_nodes_lines chapters 0 []).
    rewrite (relationships_lines vars chapters 0 _ Hv)
      by (intros concept H; apply Hk; eauto).
    rewrite (concept_query_lines vars 0 Hv Hq), Hnames, app_nil_l, <- app_assoc.
    reflexivity.
  - unfold expected_lines. rewrite !length_app, !length_imap, length_concat_imap.
    unfold listed_concepts. lia.
  - rewrite <- Hnames. apply Permutation_length.
    apply NoDup_Permutation; [exact Hnd | apply NoDup_remove_dups|].
    intros name. rewrite elem_of_remove_dups, Hk, list_elem_of_fmap.
    split; intros (concept & H1 & H2); eauto.
Qed.

Lemma create_cypher_queries_lines_witness :
  KnowledgeBase.create_cypher_queries (map EntryChapter SampleOffline.chapter_entries)
  = Ok ("CREATE (c1:Chapter {title: 'Regression', chapterNumber: '1'})"
         ++ String LF ("CREATE (c2:Chapter {title: 'untitled', chapterNumber: '2'})"
         ++ String LF ("CREATE (c3:Chapter {title: 'None', chapterNumber: 'None'})"
         ++ String LF ("CREATE (cpt1:Concept {name: 'Bayes theorem'})"
         ++ String LF ("CREATE (cpt2:Concept {name: 'SVM'})"
         ++ String LF ("CREATE (cpt3:Concept {name: 'k-means (Lloyd)'})"
         ++ String LF ("CREATE (c1)-[:CONTAINS]->(cpt1)"
         ++ String LF ("CREATE (c1)-[:CONTAINS]->(cpt2)"
         ++ String LF ("CREATE (c3)-[:CONTAINS]->(cpt2)"
         ++ String LF ("CREATE (c3)-[:CONTAINS]->(cpt1)"
         ++ String LF ("CREATE (c3)-[:CONTAINS]->(cpt3)")))))))))))%string.
Proof.
  destruct (create_cypher_queries_lines SampleOffline.chapter_entries)
    as (text & H & Hj & _).
  rewrite H. f_equal. apply (newline_joined_unique _ _ _ Hj).
  assert (expected_lines SampleOffline.chapter_entries
          = [ "CREATE (c1:Chapter {title: 'Regression', chapterNumber: '1'})";
      "CREATE (c2:Chapter {title: 'untitled', chapterNumber: '2'})";
      "CREATE (c3:Chapter {title: 'None', chapterNumber: 'None'})";
      "CREATE (cpt1:Concept {name: 'Bayes theorem'})";
      "CREATE (cpt2:Concept {name: 'SVM'})";
      "CREATE (cpt3:Concept {name: 'k-means (Lloyd)'})";
      "CREATE (c1)-[:CONTAINS]->(cpt1)";
      "CREATE (c1)-[:CONTAINS]->(cpt2)";
      "CREATE (c3)-[:CONTAINS]->(cpt2)";
      "CREATE (c3)-[:CONTAINS]->(cpt1)";
      "CREATE (c3)-[:CONTAINS]->(cpt3)" ]%string) as ->
      by (vm_compute; reflexivity).
  repeat constructor.
Defined.

(** X15.  If one item of the data is a plain string (the note that
    preprocess.py leaves for a chapter it could not process),
    [create_cypher_queries] raises AttributeError in its first loop and
    produces no query at all. *)
Theorem create_cypher_queries_rejects_a_note (data : list Entry) (note : string) :
  EntryNote note ∈ data ->
  KnowledgeBase.create_cypher_queries data
  = Raise (AttributeError "'str' object has no attribute 'get'").
Proof.
  intros H. unfold KnowledgeBase.create_cypher_queries, KnowledgeBase.build_queries,
    mbind, Result_bind.
  rewrite (first_pass_note _ _ _ H). reflexivity.
Qed.

Lemma create_cypher_queries_rejects_a_note_witness :
  KnowledgeBase.create_cypher_queries SampleOffline.results
  = Raise (AttributeError "'str' object has no attribute 'get'").
Proof.
  apply (create_cypher_queries_rejects_a_note SampleOffline.results
           "Chapter 2, Clustering - Error: Could not process chapter").
  right. left.
Defined.

(* ===================================================================== *)
(** ** ingest.py: the concept list, the batches, the mentions             *)
(* ===================================================================== *)

Lemma clean_is_remove_quotes concept : Ingest.clean concept = remove_quotes concept.
Proof.
  unfold Ingest.clean.
  destruct (existsb _ Ingest.SPECIAL) eqn:E; [reflexivity|].
  symmetry. apply remove_quotes_id.
  apply not_true_iff_false. intros H. apply not_true_iff_false in E. apply E.
  apply existsb_exists. exists Str.SQUOTE. split; [|exact H].
  unfold Ingest.SPECIAL. simpl. do 8 right. left. reflexivity.
Qed.

Lemma all_concepts_chapters chapters acc :
  Forall has_concepts chapters ->
  Ingest.all_concepts (map EntryChapter chapters) acc = Ok (acc ++ listed_concepts chapters).
Proof.
  intros H. revert acc. induction H as [|c chapters Hc _ IH]; intros acc; simpl.
  - rewrite app_nil_r. reflexivity.
  - unfold mbind, Result_bind, has_concepts, listed_concepts in *. simpl.
    destruct (entry_concepts c) as [concepts|]; [|contradiction].
    simpl. rewrite IH, app_assoc. reflexivity.
Qed.

Lemma create_concept_list_sorted_unique_aux (data : list Entry) (names : list string) :
  Ingest.create_concept_list data = Ok names ->
  exists concepts,
    Ingest.all_concepts data [] = Ok concepts
    /\ forall name, name ∈ names
                    <-> exists concept, concept ∈ concepts
                                        /\ name = remove_quotes concept.
Proof.
  unfold Ingest.create_concept_list, mbind, Result_bind, mret, Result_ret.
  destruct (Ingest.all_concepts data []) as [concepts|e]; [|discriminate].
  intros [= <-]. exists concepts. split; [reflexivity|].
  intros name. rewrite merge_sort_Permutation, elem_of_remove_dups, list_elem_of_fmap.
  split; intros (concept & H1 & H2); exists concept;
    rewrite clean_is_remove_quotes in *; auto.
Qed.

(** X16.  Whenever [create_concept_list] returns, the list is sorted in
    ascending order of the strings, has no duplicate, holds no name with a
    single quote, and its members are exactly the listed concepts with
    their single quotes removed. *)
Theorem create_concept_list_sorted_unique (data : list Entry) (names : list string) :
  Ingest.create_concept_list data = Ok names ->
  StronglySorted String.le names
  /\ NoDup names
  /\ Forall (fun name => Str.has_char Str.SQUOTE name = false) names
  /\ exists concepts,
       Ingest.all_concepts data [] = Ok concepts
       /\ forall name, name ∈ names
                       <-> exists concept, concept ∈ concepts
                                           /\ name = remove_quotes concept.
Proof.
  unfold Ingest.create_concept_list, mbind, Result_bind, mret, Result_ret.
  destruct (Ingest.all_concepts data []) as [concepts|e]; [|discriminate].
  intros [= <-].
  assert (forall name,
             name ∈ merge_sort String.le (remove_dups (map Ingest.clean concepts))
             <-> exists concept, concept ∈ concepts /\ name = remove_quotes concept) as Hk.
  { intros name. rewrite merge_sort_Permutation, elem_of_remove_dups, list_elem_of_fmap.
    split; intros (concept & H1 & H2); exists concept;
      rewrite clean_is_remove_quotes in *; auto. }
  split; [apply StronglySorted_merge_sort; apply _|].
  split; [rewrite merge_sort_Permutation; apply NoDup_remove_dups|].
  split; [|exists concepts; split; [reflexivity | exact Hk]].
  apply Forall_forall. intros name Hname. apply Hk in Hname as (concept & _ & ->).
  apply remove_quotes_no_quote.
Qed.

Lemma create_concept_list_sorted_unique_witness :
  Ingest.create_concept_list (map EntryChapter [SampleOffline.listing_chapter])
  = Ok ["Bayes theorem"; "SVM"; "k-means (Lloyd)"]
  /\ StronglySorted String.le ["Bayes theorem"; "SVM"; "k-means (Lloyd)"].
Proof.
  split; [reflexivity|].
  exact (proj1 (create_concept_list_sorted_unique
                  (map EntryChapter [SampleOffline.listing_chapter])
                  ["Bayes theorem"; "SVM"; "k-means (Lloyd)"] eq_refl)).
Defined.

(** X17.  On data whose items are all chapter dicts with the key
    concepts, the names that ingest.py matches against the chunks
    ([create_concept_list]) are exactly the names for which
    knowledge_base.py creates a Concept node (the keys of the first
    pass): both files clean a concept name the same way. *)
Theorem concept_list_matches_concept_nodes (chapters : list ChapterEntry) :
  Forall has_concepts chapters ->
  exists names concept_vars counter,
    Ingest.create_concept_list (map EntryChapter chapters) = Ok names
    /\ KnowledgeBase.first_pass (map EntryChapter chapters) ([], 1%nat)
       = Ok (concept_vars, counter)
    /\ forall name, name ∈ names <-> name ∈ map fst concept_vars.
Proof.
  intros H.
  destruct (first_pass_vars chapters) as (vars & Hfp & _ & _ & Hk).
  destruct (Ingest.create_concept_list (map EntryChapter chapters)) as [names|e] eqn:E.
  - destruct (create_concept_list_sorted_unique_aux _ _ E) as (concepts & Hc & Hn).
    rewrite (all_concepts_chapters _ [] H) in Hc. injection Hc as <-.
    exists names, vars, (S (length vars)). split; [reflexivity|]. split; [exact Hfp|].
    intros name. rewrite Hn, Hk. reflexivity.
  - unfold Ingest.create_concept_list, mbind, Result_bind in E.
    rewrite (all_concepts_chapters _ [] H) in E. discriminate.
Qed.

Lemma concept_list_matches_concept_nodes_witness :
  exists names concept_vars counter,
    Ingest.create_concept_list (map EntryChapter [SampleOffline.listing_chapter])
    = Ok names
    /\ KnowledgeBase.first_pass (map EntryChapter [SampleOffline.listing_chapter])
                                ([], 1%nat)
       = Ok (concept_vars, counter)
    /\ forall name, name ∈ names <-> name ∈ map fst concept_vars.
Proof.
  apply (concept_list_matches_concept_nodes [SampleOffline.listing_chapter]).
  repeat constructor. discriminate.
Defined.

Lemma range_from_batches {A} (size : nat) (items : list A) fuel start :
  (0 < size)%nat -> (length items - start <= fuel)%nat ->
  concat (map (fun i => take size (drop i items))
              (Ingest.range_from fuel start (length items) size))
  = drop start items
  /\ Forall (fun batch : list A => (0 < length batch <= size)%nat)
            (map (fun i => take size (drop i items))
                 (Ingest.range_from fuel start (length items) size))
  /\ length (Ingest.range_from fuel start (length items) size)
     = ((length items - start + size - 1) / size)%nat.
Proof.
  intros Hsize. revert start. induction fuel as [|fuel IH]; intros start Hfuel; simpl.
  - rewrite drop_ge by lia. split; [reflexivity|]. split; [constructor|].
    symmetry. apply Nat.div_small. lia.
  - destruct (Nat.ltb_spec start (length items)) as [Hlt|Hge].
    + destruct (IH (start + size)%nat ltac:(lia)) as (Hcat & Hall & Hlen).
      simpl. rewrite Hcat, Hlen. split; [|split].
      * rewrite <- drop_drop. apply take_drop.
      * constructor; [|exact Hall]. rewrite length_take, length_drop. lia.
      * destruct (Nat.le_gt_cases size (length items - start)) as [Hbig|Hsmall].
        -- replace (length items - start + size - 1)%nat
             with ((length items - (start + size) + size - 1) + 1 * size)%nat by lia.
           rewrite Nat.div_add by lia. lia.
        -- replace (length items - (start + size) + size - 1)%nat with (size - 1)%nat by lia.
           rewrite Nat.div_small by lia.
           simpl. apply (Nat.div_unique _ _ 1 (length items - start - 1)); lia.
    + rewrite drop_ge by lia. split; [reflexivity|]. split; [constructor|].
      symmetry. apply Nat.div_small. lia.
Qed.

(** X18.  For a positive batch size (100 for Qdrant, 50 for Neo4j), the
    batches of the two upload loops, put end to end, are the list of items
    itself: nothing is dropped, repeated or reordered; no batch is empty or
    longer than the size, and there are ceil(len/size) of them (none for an
    empty list). *)
Theorem batches_partition {A : Type} (size : nat) (items : list A) :
  (0 < size)%nat ->
  concat (Ingest.batches size items) = items
  /\ Forall (fun batch => (0 < length batch <= size)%nat) (Ingest.batches size items)
  /\ length (Ingest.batches size items) = ((length items + size - 1) / size)%nat.
Proof.
  intros H. unfold Ingest.batches, Ingest.range0.
  destruct (range_from_batches size items (length items) 0 H ltac:(lia))
    as (H1 & H2 & H3).
  rewrite length_map, H3, Nat.sub_0_r. auto.
Qed.

Lemma batches_partition_witness :
  concat (Ingest.batches Ingest.neo4j_batch_size (seq 0 120)) = seq 0 120
  /\ Forall (fun batch => (0 < length batch <= 50)%nat)
            (Ingest.batches Ingest.neo4j_batch_size (seq 0 120))
  /\ length (Ingest.batches Ingest.neo4j_batch_size (seq 0 120))
     = ((length (seq 0 120) + 50 - 1) / 50)%nat.
Proof.
  apply (batches_partition Ingest.neo4j_batch_size (seq 0 120)).
  unfold Ingest.neo4j_batch_size. lia.
Defined.



(* ===================================================================== *)
(** ** From a failed chapter to the knowledge base                        *)
(* ===================================================================== *)

Lemma all_concepts_note data note acc :
  Forall (fun item => match item with
                      | EntryChapter c => has_concepts c
                      | EntryNote _ => True
                      end) data ->
  EntryNote note ∈ data ->
  Ingest.all_concepts data acc
  = Raise (TypeError "string indices must be integers, not 'str'").
Proof.
  intros Hall H. revert acc.
  induction Hall as [|item data Hitem _ IH]; intros acc; [inversion H|].
  simpl. unfold mbind, Result_bind.
  apply elem_of_cons in H as [<-|H]; [reflexivity|].
  destruct item as [c|]; simpl; [|reflexivity].
  unfold has_concepts in Hitem. destruct (entry_concepts c); [apply IH, H | contradiction].
Qed.

Lemma entries_have_concepts generate chapters :
  Forall (fun item => match item with
                      | EntryChapter c => has_concepts c
                      | EntryNote _ => True
                      end) (imap (entry_for generate) chapters).
Proof.
  apply Forall_forall. intros item Hitem.
  apply list_elem_of_lookup in Hitem as [i Hi]. rewrite list_lookup_imap in Hi.
  destruct (chapters !! i) as [ch|]; [|discriminate]. injection Hi as <-.
  unfold entry_for. destruct (generate i (Preprocess.prompt ch)); [discriminate | exact I].
Qed.

(** X20.  One failed request is enough to make the results unusable
    downstream.  If the request of some chapter raises an ordinary exception
    (and none raises outside Exception), [extract_entities_relationships]
    still returns its results, with a note string in the place of that
    chapter; on these results, as they are saved and loaded back,
    [create_cypher_queries] raises AttributeError and [create_concept_list]
    raises TypeError. *)
Theorem failed_chapter_breaks_the_knowledge_base
        (generate : nat -> string -> Result string)
        (identify_chapters : string -> list Preprocess.Chapter) (text : string)
        (i : nat) (ch : Preprocess.Chapter) (e : PyExc) :
  (forall k p e', generate k p = Raise e' -> caught_by_except_Exception e' = true) ->
  identify_chapters text !! i = Some ch ->
  generate i (Preprocess.prompt ch) = Raise e ->
  exists results,
    Preprocess.extract_entities_relationships generate identify_chapters text = Ok results
    /\ results !! i = Some (EntryNote (Preprocess.error_note ch))
    /\ KnowledgeBase.create_cypher_queries results
       = Raise (AttributeError "'str' object has no attribute 'get'")
    /\ Ingest.create_concept_list results
       = Raise (TypeError "string indices must be integers, not 'str'").
Proof.
  intros Hc Hi He. exists (imap (entry_for generate) (identify_chapters text)).
  assert (imap (entry_for generate) (identify_chapters text) !! i
          = Some (EntryNote (Preprocess.error_note ch))) as Hnote.
  { rewrite list_lookup_imap, Hi. simpl. unfold entry_for. rewrite He. reflexivity. }
  assert (EntryNote (Preprocess.error_note ch)
            ∈ imap (entry_for generate) (identify_chapters text)) as Hin.
  { apply list_elem_of_lookup. eauto. }
  split; [|split; [exact Hnote|split]].
  - unfold Preprocess.extract_entities_relationships.
    rewrite process_chapters_entries by exact Hc. reflexivity.
  - unfold KnowledgeBase.create_cypher_queries, KnowledgeBase.build_queries,
      mbind, Result_bind.
    rewrite (first_pass_note _ _ _ Hin). reflexivity.
  - unfold Ingest.create_concept_list, mbind, Result_bind.
    rewrite (all_concepts_note _ _ [] (entries_have_concepts _ _) Hin). reflexivity.
Qed.

Lemma failed_chapter_breaks_the_knowledge_base_witness :
  exists results,
    Preprocess.extract_entities_relationships SampleOffline.generate
      SampleOffline.identify_chapters "any text" = Ok results
    /\ results !! 1%nat
       = Some (EntryNote "Chapter 2, Clustering - Error: Could not process chapter")
    /\ KnowledgeBase.create_cypher_queries results
       = Raise (AttributeError "'str' object has no attribute 'get'")
    /\ Ingest.create_concept_list results
       = Raise (TypeError "string indices must be integers, not 'str'").
Proof.
  exact (failed_chapter_breaks_the_knowledge_base SampleOffline.generate
           SampleOffline.identify_chapters "any text" 1
           (Preprocess.mkChapter (Some "2") (Some "Clustering") "Chapter 2 ...")
           (mkExc "ResourceExhausted" "429 quota exceeded")
           sample_generate_raises_ordinary eq_refl eq_refl).
Defined.

(* ===================================================================== *)
(** ** scripts.py: the offline entry points                               *)
(* ===================================================================== *)

Lemma namespace_extract :
  ScriptsOffline.namespace !! "extract_entities_relationships"
  = Some ScriptsOffline.scripts_extract_entities_relationships.
Proof. vm_compute. reflexivity. Qed.

(** X21.  The wrapper [extract_entities_relationships] of scripts.py
    never saves anything: its own [def] rebinds the imported name, so the
    call [extract_entities_relationships(text)] reaches the wrapper itself,
    which takes no argument.  Whatever the directory, the file and the
    model do, the wrapper raises; when the file was found and read, what it
    raises is that TypeError, and the extraction of preprocess.py is never
    run. *)
Theorem scripts_extract_never_saves
        (listdir : string -> Result (list string))
        (read_pdf : string -> Result (list (Result string)))
        (generate : nat -> string -> Result string)
        (identify_chapters : string -> list Preprocess.Chapter) :
  (exists e, ScriptsOffline.extract_entities_relationships listdir read_pdf generate
               identify_chapters = Raise e)
  /\ forall file_path text,
       Preprocess.gather_data listdir = Ok file_path ->
       Preprocess.preprocess_data read_pdf file_path = Ok text ->
       ScriptsOffline.extract_entities_relationships listdir read_pdf generate
         identify_chapters
       = Raise (TypeError
           "extract_entities_relationships() takes 0 positional arguments but 1 was given").
Proof.
  unfold ScriptsOffline.extract_entities_relationships, ScriptsOffline.call_extract,
    mbind, Result_bind.
  rewrite namespace_extract. split.
  - destruct (Preprocess.gather_data listdir) as [fp|e]; [|eauto].
    destruct (Preprocess.preprocess_data read_pdf fp) as [t|e]; eauto.
  - intros fp t -> ->. reflexivity.
Qed.

Lemma scripts_extract_never_saves_witness :
  ScriptsOffline.extract_entities_relationships
    (fun _ => Ok ["ml.pdf"]) (fun _ => Ok [Ok "Chapter 1"])
    SampleOffline.generate SampleOffline.identify_chapters
  = Raise (TypeError
      "extract_entities_relationships() takes 0 positional arguments but 1 was given").
Proof.
  exact (proj2 (scripts_extract_never_saves
                  (fun _ => Ok ["ml.pdf"]) (fun _ => Ok [Ok "Chapter 1"])
                  SampleOffline.generate SampleOffline.identify_chapters)
           (Some "ml.pdf") ("Chapter 1" ++ Str.NL ++ Str.NL)%string eq_refl eq_refl).
Defined.

(** X22.  When the environment is complete, a PDF is found and the
    ingestion raises an ordinary exception, [ingest_data] does not raise: it
    prints the error and then still prints "All files processed
    successfully.". *)
Theorem ingest_data_reports_success_after_failure
        (env : gmap string string) (listdir : string -> Result (list string))
        (ingest : string -> Result unit) (pdf_dir name path : string) (e : PyExc) :
  Forall (is_set env) Config.required_vars ->
  Preprocess.gather_data listdir = Ok (Some name) ->
  ScriptsOffline.path_join pdf_dir (Some name) = Ok path ->
  ingest path = Raise e ->
  caught_by_except_Exception e = true ->
  ScriptsOffline.ingest_data env listdir ingest pdf_dir
  = Ok [("Error in ingestion: " ++ exc_msg e)%string; "All files processed successfully."].
Proof.
  intros Henv Hg Hp Hi He. apply validate_environment_complete in Henv.
  unfold ScriptsOffline.ingest_data, try_except, mbind, Result_bind, mret, Result_ret.
  rewrite Henv, Hg, Hp, Hi, He. reflexivity.
Qed.

Lemma ingest_data_reports_success_after_failure_witness :
  ScriptsOffline.ingest_data SampleOffline.env
    (fun _ => Ok ["notes.txt"; "ml.pdf"])
    (fun _ => Raise (mkExc "ResponseHandlingException" "connection refused"))
    "ML-DS-TEXTBOOKS"
  = Ok ["Error in ingestion: connection refused"; "All files processed successfully."].
Proof.
  apply (ingest_data_reports_success_after_failure SampleOffline.env
           (fun _ => Ok ["notes.txt"; "ml.pdf"])
           (fun _ => Raise (mkExc "ResponseHandlingException" "connection refused"))
           "ML-DS-TEXTBOOKS" "ml.pdf" "ML-DS-TEXTBOOKS/ml.pdf"
           (mkExc "ResponseHandlingException" "connection refused"));
    try reflexivity.
  repeat constructor; eexists _, _; vm_compute; reflexivity.
Defined.

(** X23.  When the environment is complete but the directory holds no
    PDF, [ingest_data] raises TypeError while it builds the path (the join
    of the directory with None), outside its try block: the ingestion is
    never started and nothing is printed, whatever the ingestion would do. *)
Theorem ingest_data_without_pdf_raises
        (env : gmap string string) (listdir : string -> Result (list string))
        (ingest : string -> Result unit) (pdf_dir : string) (files : list string) :
  Forall (is_set env) Config.required_vars ->
  listdir Preprocess.PDF_DIR = Ok files ->
  Forall (fun name => ~ is_pdf_name name) files ->
  ScriptsOffline.ingest_data env listdir ingest pdf_dir
  = Raise (TypeError
      "join() argument must be str, bytes, or os.PathLike object, not 'NoneType'").
Proof.
  intros Henv Hl Hnone. apply validate_environment_complete in Henv.
  assert (Preprocess.gather_data listdir = Ok None) as Hg.
  { unfold Preprocess.gather_data, mbind, Result_bind, mret, Result_ret. rewrite Hl.
    f_equal. apply find_none_all. eapply Forall_impl; [exact Hnone|].
    intros name Hn. simpl in Hn. rewrite is_pdf_name_endswith in Hn.
    destruct (Preprocess.endswith ".pdf" name); congruence. }
  unfold ScriptsOffline.ingest_data, mbind, Result_bind.
  rewrite Henv, Hg. reflexivity.
Qed.

Lemma ingest_data_without_pdf_raises_witness :
  ScriptsOffline.ingest_data SampleOffline.env (fun _ => Ok ["notes.txt"; "SCAN.PDF"])
    (fun _ => Ok ()) "ML-DS-TEXTBOOKS"
  = Raise (TypeError
      "join() argument must be str, bytes, or os.PathLike object, not 'NoneType'").
Proof.
  apply (ingest_data_without_pdf_raises SampleOffline.env
           (fun _ => Ok ["notes.txt"; "SCAN.PDF"]) (fun _ => Ok ())
           "ML-DS-TEXTBOOKS" ["notes.txt"; "SCAN.PDF"]).
  - repeat constructor; eexists _, _; vm_compute; reflexivity.
  - reflexivity.
  - repeat constructor; intros H%is_pdf_name_endswith; discriminate.
Defined.
